(** * restAPI.py: the paginated, rate-limited fetch of market bars

    A shallow embedding of [get_historical_data], [get_paginated_data] and
    the date handling of [main] from [src/restAPI.py], followed by the
    properties of the chunk planning, of the rate-limit waits, of the merge
    and of the error handling. *)

From Stdlib Require Import ZArith List String Ascii Bool Lia Sorted.
Import ListNotations.
Open Scope Z_scope.

(** ** Calendar arithmetic of [datetime]

    [datetime.strptime(s, '%Y-%m-%d')] yields a datetime at midnight, which
    is represented by its proleptic Gregorian ordinal ([toordinal()], day 1
    is 0001-01-01).  Adding [timedelta(days=n)] is addition on ordinals
    and comparing two such datetimes is comparing their ordinals.  The
    functions below follow the pure-Python [datetime] module.  The upper
    limit of [datetime] (9999-12-31, beyond which the addition raises
    OverflowError) is not represented: ordinals are unbounded. *)

Module Calendar.

Definition is_leap (year : Z) : bool :=
  (year mod 4 =? 0) && (negb (year mod 100 =? 0) || (year mod 400 =? 0)).

Definition DAYS_IN_MONTH : list Z :=
  [-1; 31; 28; 31; 30; 31; 30; 31; 31; 30; 31; 30; 31].

Definition DAYS_BEFORE_MONTH : list Z :=
  [-1; 0; 31; 59; 90; 120; 151; 181; 212; 243; 273; 304; 334].

Definition days_in_month (year month : Z) : Z :=
  if (month =? 2) && is_leap year then 29
  else nth (Z.to_nat month) DAYS_IN_MONTH 0.

Definition days_before_year (year : Z) : Z :=
  let y := year - 1 in y * 365 + y / 4 - y / 100 + y / 400.

Definition days_before_month (year month : Z) : Z :=
  nth (Z.to_nat month) DAYS_BEFORE_MONTH 0
  + (if (2 <? month) && is_leap year then 1 else 0).

Definition ymd2ord (year month day : Z) : Z :=
  days_before_year year + days_before_month year month + day.

Definition DI400Y : Z := 146097.
Definition DI100Y : Z := 36524.
Definition DI4Y : Z := 1461.

(** The end of [_ord2ymd]: month and day of the day number [n] (from 0)
    of a year, by an estimate of the month that is corrected when it is
    too large. *)
Definition month_and_day (leapyear : bool) (n : Z) : Z * Z :=
  let month := Z.shiftr (n + 50) 5 in
  let preceding :=
    nth (Z.to_nat month) DAYS_BEFORE_MONTH 0
    + (if (2 <? month) && leapyear then 1 else 0) in
  let '(month, preceding) :=
    if n <? preceding
    then (month - 1,
          preceding - (nth (Z.to_nat (month - 1)) DAYS_IN_MONTH 0
                       + (if (month - 1 =? 2) && leapyear then 1 else 0)))
    else (month, preceding) in
  (month, n - preceding + 1).

Definition ord2ymd (ordinal : Z) : Z * Z * Z :=
  let n := ordinal - 1 in
  let n400 := n / DI400Y in
  let n := n mod DI400Y in
  let year := n400 * 400 + 1 in
  let n100 := n / DI100Y in
  let n := n mod DI100Y in
  let n4 := n / DI4Y in
  let n := n mod DI4Y in
  let n1 := n / 365 in
  let n := n mod 365 in
  let year := year + n100 * 100 + n4 * 4 + n1 in
  if (n1 =? 4) || (n100 =? 4) then (year - 1, 12, 31)
  else
    let leapyear := (n1 =? 3) && (negb (n4 =? 24) || (n100 =? 3)) in
    let '(month, day) := month_and_day leapyear n in
    (year, month, day).

(** The check made by the [datetime(year, month, day)] constructor. *)
Definition valid_date (year month day : Z) : bool :=
  (1 <=? year) && (year <=? 9999) && (1 <=? month) && (month <=? 12)
  && (1 <=? day) && (day <=? days_in_month year month).

(** *** Text of a date: [strftime('%Y-%m-%d')] and [strptime(_, '%Y-%m-%d')] *)

Definition digit_char (d : Z) : ascii := ascii_of_N (Z.to_N (48 + d mod 10)).

Definition digit_val (c : ascii) : option Z :=
  let n := Z.of_N (N_of_ascii c) in
  if (48 <=? n) && (n <=? 57) then Some (n - 48) else None.

Definition pad2 (n : Z) (rest : string) : string :=
  String (digit_char (n / 10)) (String (digit_char n) rest).

Definition pad4 (n : Z) (rest : string) : string :=
  String (digit_char (n / 1000)) (String (digit_char (n / 100)) (pad2 n rest)).

(** The text [YYYY-MM-DD] of a calendar date, zero padded. *)
Definition isoformat (year month day : Z) : string :=
  pad4 year (String "-" (pad2 month (String "-" (pad2 day EmptyString)))).

(** [strftime('%Y-%m-%d')] of the datetime with this ordinal.  The year is
    written with four digits; for years below 1000 some C libraries write
    fewer. *)
Definition strftime (ordinal : Z) : string :=
  let '(y, m, d) := ord2ymd ordinal in isoformat y m d.

(** [%m] is the regular expression [1[0-2]|0[1-9]|[1-9]]; in the format it
    is followed by a dash.  The result is the month and the text after the
    dash. *)
Definition parse_month (s : string) : option (Z * string) :=
  match s with
  | String a (String b rest) =>
      match digit_val a, digit_val b, rest with
      | Some x, Some y, String "-" rest' =>
          if ((x =? 1) && (y <=? 2)) || ((x =? 0) && (1 <=? y))
          then Some (10 * x + y, rest') else None
      | Some x, None, _ =>
          if (1 <=? x) && (b =? "-")%char then Some (x, rest) else None
      | _, _, _ => None
      end
  | _ => None
  end.

(** [%d] is [3[01]|[12]\d|0[1-9]|[1-9]| [1-9]]; it ends the format, so
    the whole remaining text has to match. *)
Definition parse_day (s : string) : option Z :=
  match s with
  | String a EmptyString =>
      match digit_val a with
      | Some x => if 1 <=? x then Some x else None
      | None => None
      end
  | String a (String b EmptyString) =>
      match digit_val a, digit_val b with
      | Some x, Some y =>
          if ((x =? 3) && (y <=? 1)) || (x =? 1) || (x =? 2)
             || ((x =? 0) && (1 <=? y))
          then Some (10 * x + y) else None
      | None, Some y =>
          if (a =? " ")%char && (1 <=? y) then Some y else None
      | _, _ => None
      end
  | _ => None
  end.

(** [datetime.strptime(s, '%Y-%m-%d')]: [None] stands for ValueError. *)
Definition strptime (s : string) : option Z :=
  match s with
  | String y1 (String y2 (String y3 (String y4 (String dash rest)))) =>
      match digit_val y1, digit_val y2, digit_val y3, digit_val y4 with
      | Some a, Some b, Some c, Some d =>
          if (dash =? "-")%char then
            match parse_month rest with
            | Some (month, rest') =>
                match parse_day rest' with
                | Some day =>
                    let year := 1000 * a + 100 * b + 10 * c + d in
                    if valid_date year month day
                    then Some (ymd2ord year month day) else None
                | None => None
                end
            | None => None
            end
          else None
      | _, _, _, _ => None
      end
  | _ => None
  end.

(** What [month_and_day] has to satisfy, as a test that can be run. *)
Definition month_and_day_ok (leapyear : bool) (n : Z) : bool :=
  let '(m, d) := month_and_day leapyear n in
  (1 <=? m) && (m <=? 12) && (1 <=? d)
  && (d <=? (if (m =? 2) && leapyear then 29
             else nth (Z.to_nat m) DAYS_IN_MONTH 0))
  && (nth (Z.to_nat m) DAYS_BEFORE_MONTH 0
      + (if (2 <? m) && leapyear then 1 else 0) + d =? n + 1).


End Calendar.

Import Calendar.

(** ** Provider records, rows and frames *)

Section Engine.

(** The numbers of a provider record (prices, volume, counts) are only
    copied, never computed with: their type is left open. *)
Variable num : Type.

Inductive pyval : Type :=
  | PyNone
  | PyNum (x : num).

(** A raw provider record [a].  The six attributes read as [a.x] are there;
    [vwap] and [transactions] are read with [getattr(a, _, None)] and may
    be missing ([None] here). *)
Record Agg : Type := {
  agg_timestamp : Z;
  agg_open : pyval;
  agg_high : pyval;
  agg_low : pyval;
  agg_close : pyval;
  agg_volume : pyval;
  agg_vwap : option pyval;
  agg_transactions : option pyval
}.

(** One row of the frame: the dict built at lines 52-61.  A timestamp is
    kept as its milliseconds since the epoch, which is what
    [pd.to_datetime(_, unit='ms')] denotes. *)
Record Row : Type := {
  timestamp : Z;
  open : pyval;
  high : pyval;
  low : pyval;
  close : pyval;
  volume : pyval;
  vwap : pyval;
  transactions : pyval
}.

Definition getattr (x : option pyval) (default : pyval) : pyval :=
  match x with
  | Some v => v
  | None => default
  end.

Definition to_datetime_ms (t : Z) : Z := t.

Definition to_row (a : Agg) : Row := {|
  timestamp := to_datetime_ms (agg_timestamp a);
  open := agg_open a;
  high := agg_high a;
  low := agg_low a;
  close := agg_close a;
  volume := agg_volume a;
  vwap := getattr (agg_vwap a) PyNone;
  transactions := getattr (agg_transactions a) PyNone
|}.

(** A [DataFrame] indexed by timestamp is the list of its rows in index
    order; [pd.DataFrame()] is the empty list and [pd.concat] appends the
    rows of the frames in the order given. *)
Definition DataFrame : Type := list Row.

Definition empty (df : DataFrame) : bool :=
  match df with
  | [] => true
  | _ :: _ => false
  end.

Definition pd_concat (frames : list DataFrame) : DataFrame :=
  List.concat frames.

(** ** The provider and the effects of the program *)

(** The arguments of [client.list_aggs]. *)
Record request : Type := {
  ticker : string;
  multiplier : Z;
  timespan : string;
  from_ : string;
  to : string;
  limit : Z
}.

(** What [list(client.list_aggs(...))] does: it yields the records or
    raises an exception [e], kept as its text [str(e)]. *)
Inductive outcome : Type :=
  | Aggs (aggs : list Agg)
  | Raise (e : string).

(** The lines written by [print], by the place they come from. *)
Inductive message : Type :=
  | MsgRequesting (ticker start_date end_date : string)   (* line 32 *)
  | MsgNoData                                             (* line 48 *)
  | MsgError (e : string)                                 (* line 69 *)
  | MsgNotAuthorized                                      (* line 72 *)
  | MsgRateLimit                                          (* line 74 *)
  | MsgFetchingChunk (chunk_start chunk_end : string)     (* line 112 *)
  | MsgRetrieved (n : nat)                                (* line 119 *)
  | MsgWaiting                                            (* line 126 *)
  | MsgSwapping                                           (* line 271 *)
  | MsgFetching (multiplier : Z)
                (timespan ticker start_date end_date : string). (* line 315 *)

Inductive event : Type :=
  | Print (m : message)
  | ListAggs (req : request) (o : outcome)
  | Sleep (seconds : Z).

(** The outside world: the provider answers a request from its current
    state, and the passing of time during [time.sleep] may change that
    state.  Both are arbitrary. *)
Variable W : Type.
Variable list_aggs : request -> W -> outcome * W.
Variable sleep_world : Z -> W -> W.

(** A computation returns a value, the events it performed in order, and
    the world it leaves. *)
Definition M (A : Type) : Type := W -> A * list event * W.

Definition ret {A} (a : A) : M A := fun w => (a, [], w).

Definition bind {A B} (m : M A) (f : A -> M B) : M B :=
  fun w =>
    let '(a, t1, w1) := m w in
    let '(b, t2, w2) := f a w1 in
    (b, t1 ++ t2, w2).

Notation "x <- m ;; k" := (bind m (fun x => k))
  (at level 61, m at next level, right associativity).
Notation "m ;;; k" := (bind m (fun _ => k))
  (at level 61, right associativity).

Definition print (m : message) : M unit := fun w => (tt, [Print m], w).

Definition time_sleep (seconds : Z) : M unit :=
  fun w => (tt, [Sleep seconds], sleep_world seconds w).

Definition client_list_aggs (req : request) : M outcome :=
  fun w => let '(o, w') := list_aggs req w in (o, [ListAggs req o], w').

(** [sub in s] on Python strings. *)
Fixpoint contains (sub s : string) : bool :=
  String.prefix sub s
  || match s with
     | EmptyString => false
     | String _ s' => contains sub s'
     end.

(** ** [get_historical_data] (lines 10-75) *)

Definition get_historical_data
    (ticker start_date end_date timespan : string) (multiplier : Z)
  : M DataFrame :=
  print (MsgRequesting ticker start_date end_date) ;;;
  o <- client_list_aggs {| ticker := ticker; multiplier := multiplier;
                           timespan := timespan; from_ := start_date;
                           to := end_date; limit := 50000 |} ;;
  match o with
  | Aggs aggs =>
      match aggs with
      | [] => print MsgNoData ;;; ret []
      | _ :: _ => ret (map to_row aggs)
      end
  | Raise e =>
      print (MsgError e) ;;;
      (if contains "NOT_AUTHORIZED" e then print MsgNotAuthorized
       else if contains "RATE_LIMIT" e then print MsgRateLimit
       else ret tt) ;;;
      ret []
  end.

(** ** [get_paginated_data] (lines 77-134) *)

Inductive exn : Type :=
  | ValueError.

Inductive result (A : Type) : Type :=
  | Returned (a : A)
  | Raised (e : exn)
  | OutOfFuel.
Arguments Returned {A} a.
Arguments Raised {A} e.
Arguments OutOfFuel {A}.

(** One pass through the body of the [while] loop (lines 103-127).  It
    returns the new [all_data] and the new [current_start]. *)
Definition loop_body
    (ticker timespan : string) (multiplier chunk_days end_dt : Z)
    (current_start : Z) (all_data : list DataFrame)
  : M (list DataFrame * Z) :=
  let current_end := current_start + chunk_days in
  let current_end := if end_dt <? current_end then end_dt else current_end in
  let chunk_start := strftime current_start in
  let chunk_end := strftime current_end in
  print (MsgFetchingChunk chunk_start chunk_end) ;;;
  chunk_df <- get_historical_data ticker chunk_start chunk_end
                                  timespan multiplier ;;
  all_data <- (if negb (empty chunk_df)
               then print (MsgRetrieved (List.length chunk_df)) ;;;
                    ret (all_data ++ [chunk_df])
               else ret all_data) ;;
  let current_start := current_end + 1 in
  (if current_start <=? end_dt
   then print MsgWaiting ;;; time_sleep 12
   else ret tt) ;;;
  ret (all_data, current_start).

(** The [while current_start <= end_dt] loop.  [fuel] bounds the number of
    passes; [None] means the bound was reached with the condition still
    true. *)
Fixpoint while_loop (fuel : nat)
    (ticker timespan : string) (multiplier chunk_days end_dt : Z)
    (current_start : Z) (all_data : list DataFrame)
  : M (option (list DataFrame)) :=
  if current_start <=? end_dt then
    match fuel with
    | O => ret None
    | S fuel' =>
        st <- loop_body ticker timespan multiplier chunk_days end_dt
                        current_start all_data ;;
        while_loop fuel' ticker timespan multiplier chunk_days end_dt
                   (snd st) (fst st)
    end
  else ret (Some all_data).

(** Every pass moves [current_start] forward by at least a day, so the
    number of days of the range bounds the number of passes. *)
Definition passes_bound (start_dt end_dt : Z) : nat :=
  Z.to_nat (end_dt - start_dt + 1).

Definition get_paginated_data
    (ticker start_date end_date timespan : string) (multiplier : Z)
  : M (result DataFrame) :=
  match strptime start_date, strptime end_date with
  | Some start_dt, Some end_dt =>
      let chunk_days := if (timespan =? "minute")%string then 7 else 30 in
      r <- while_loop (passes_bound start_dt end_dt) ticker timespan
                      multiplier chunk_days end_dt start_dt [] ;;
      match r with
      | Some all_data =>
          match all_data with
          | _ :: _ => ret (Returned (pd_concat all_data))
          | [] => ret (Returned [])
          end
      | None => ret OutOfFuel
      end
  | _, _ => ret (Raised ValueError)
  end.

(** ** The date handling and the dispatch of [main] (lines 269-322)

    The two dates read by [get_date_input] and the timespan and multiplier
    chosen at lines 274-313 are arguments; the menus printed there are left
    out.  Python compares the two date strings, not the dates. *)

Definition str_gt (a b : string) : bool := String.ltb b a.

Definition main_fetch
    (ticker start_date end_date timespan : string) (multiplier : Z)
  : M (result DataFrame) :=
  dates <- (if str_gt start_date end_date
            then print MsgSwapping ;;; ret (end_date, start_date)
            else ret (start_date, end_date)) ;;
  let '(start_date, end_date) := dates in
  print (MsgFetching multiplier timespan ticker start_date end_date) ;;;
  if (timespan =? "minute")%string || (timespan =? "hour")%string
  then get_paginated_data ticker start_date end_date timespan multiplier
  else df <- get_historical_data ticker start_date end_date
                                 timespan multiplier ;;
       ret (Returned df).

(** ** Views of a run used to state its properties *)

(** The frame [get_historical_data] makes of what the provider did. *)
Definition frame_of (o : outcome) : DataFrame :=
  match o with
  | Aggs aggs => map to_row aggs
  | Raise _ => []
  end.

(** The records of a chunk that succeeded; a failed chunk has none. *)
Definition records_of (o : outcome) : list Agg :=
  match o with
  | Aggs aggs => aggs
  | Raise _ => []
  end.

(** What [get_historical_data] prints after the provider has answered. *)
Definition diagnostics (o : outcome) : list event :=
  match o with
  | Aggs [] => [Print MsgNoData]
  | Aggs (_ :: _) => []
  | Raise e =>
      Print (MsgError e)
      :: (if contains "NOT_AUTHORIZED" e then [Print MsgNotAuthorized]
          else if contains "RATE_LIMIT" e then [Print MsgRateLimit]
          else [])
  end.

(** The requests of a run, the outcomes the provider gave them, and the
    requests and waits in the order they happened. *)
Definition requests (tr : list event) : list request :=
  flat_map (fun ev => match ev with ListAggs r _ => [r] | _ => [] end) tr.

Definition outcomes (tr : list event) : list outcome :=
  flat_map (fun ev => match ev with ListAggs _ o => [o] | _ => [] end) tr.

Inductive action : Type :=
  | Call
  | Wait (seconds : Z).

Definition schedule (tr : list event) : list action :=
  flat_map (fun ev => match ev with
                      | ListAggs _ _ => [Call]
                      | Sleep n => [Wait n]
                      | Print _ => []
                      end) tr.


Definition request_dates (r : request) : string * string := (from_ r, to r).

(** Every row of [f1] is earlier than every row of [f2]: the time
    intervals of the two frames do not overlap, [f1] coming first. *)
Definition precedes (f1 f2 : DataFrame) : Prop :=
  forall r1 r2, In r1 f1 -> In r2 f2 -> timestamp r1 < timestamp r2.

(** The request made for the chunk [c = (current_start, current_end)]. *)
Definition chunk_request (ticker timespan : string) (multiplier : Z)
    (c : Z * Z) : request :=
  {| ticker := ticker; multiplier := multiplier; timespan := timespan;
     from_ := strftime (fst c); to := strftime (snd c); limit := 50000 |}.

(** What [all_data.append] adds for a chunk (lines 117-118). *)
Definition kept (chunk_df : DataFrame) : list DataFrame :=
  if empty chunk_df then [] else [chunk_df].

(** The events of one pass for the chunk [c], when the provider's outcome
    is [o]; [more] tells whether another chunk follows. *)
Definition pass_log (ticker timespan : string) (multiplier : Z)
    (c : Z * Z) (o : outcome) (more : bool) : list event :=
  [Print (MsgFetchingChunk (strftime (fst c)) (strftime (snd c)));
   Print (MsgRequesting ticker (strftime (fst c)) (strftime (snd c)));
   ListAggs (chunk_request ticker timespan multiplier c) o]
  ++ diagnostics o
  ++ (if empty (frame_of o) then []
      else [Print (MsgRetrieved (List.length (frame_of o)))])
  ++ (if more then [Print MsgWaiting; Sleep 12] else []).

(** The run of the loop told chunk by chunk: the chunks are requested in
    order, with a wait between two of them. *)
Fixpoint plan_run (ticker timespan : string) (multiplier : Z)
    (chunks : list (Z * Z)) (all_data : list DataFrame) (w : W)
  : list DataFrame * list event * W :=
  match chunks with
  | [] => (all_data, [], w)
  | c :: rest =>
      let more := match rest with [] => false | _ :: _ => true end in
      let ow := list_aggs (chunk_request ticker timespan multiplier c) w in
      let w1 := if more then sleep_world 12 (snd ow) else snd ow in
      let '(r, tr, w2) :=
        plan_run ticker timespan multiplier rest
                 (all_data ++ kept (frame_of (fst ow))) w1 in
      (r, pass_log ticker timespan multiplier c (fst ow) more ++ tr, w2)
  end.

End Engine.

Arguments Returned {A} a.
Arguments Raised {A} e.
Arguments OutOfFuel {A}.
Arguments PyNone {num}.
Arguments PyNum {num} x.
Arguments Aggs {num} aggs.
Arguments Raise {num} e.
Arguments Print {num} m.
Arguments ListAggs {num} req o.
Arguments Sleep {num} seconds.
Arguments empty {num} df.
Arguments pd_concat {num} frames.
Arguments to_row {num} a.
Arguments getattr {num} x default.
Arguments frame_of {num} o.
Arguments records_of {num} o.
Arguments precedes {num} f1 f2.
Arguments timestamp {num} r.
Arguments open {num} r.
Arguments high {num} r.
Arguments low {num} r.
Arguments close {num} r.
Arguments volume {num} r.
Arguments vwap {num} r.
Arguments transactions {num} r.
Arguments agg_timestamp {num} a.
Arguments agg_open {num} a.
Arguments agg_high {num} a.
Arguments agg_low {num} a.
Arguments agg_close {num} a.
Arguments agg_volume {num} a.
Arguments agg_vwap {num} a.
Arguments agg_transactions {num} a.
Arguments diagnostics {num} o.
Arguments requests {num} tr.
Arguments outcomes {num} tr.
Arguments schedule {num} tr.
Arguments kept {num} chunk_df.
Arguments pass_log {num} ticker timespan multiplier c o more.
Arguments ret {num W A} a.
Arguments bind {num W A B} m f.
Arguments print {num W} m.
Arguments time_sleep {num W} sleep_world seconds.
Arguments client_list_aggs {num W} list_aggs req.
Arguments get_historical_data {num W} list_aggs
  ticker start_date end_date timespan multiplier.
Arguments loop_body {num W} list_aggs sleep_world
  ticker timespan multiplier chunk_days end_dt current_start all_data.
Arguments while_loop {num W} list_aggs sleep_world fuel
  ticker timespan multiplier chunk_days end_dt current_start all_data.
Arguments get_paginated_data {num W} list_aggs sleep_world
  ticker start_date end_date timespan multiplier.
Arguments main_fetch {num W} list_aggs sleep_world
  ticker start_date end_date timespan multiplier.
Arguments plan_run {num W} list_aggs sleep_world
  ticker timespan multiplier chunks all_data w.

(** ** The chunks of a range

    The pairs [(current_start, current_end)] that the loop of
    [get_paginated_data] goes through, computed by the date arithmetic of
    lines 102-106 and 122 alone. *)
Fixpoint chunks_from (fuel : nat) (chunk_days end_dt current_start : Z)
  : list (Z * Z) :=
  if current_start <=? end_dt then
    match fuel with
    | O => []
    | S fuel' =>
        let current_end := current_start + chunk_days in
        let current_end :=
          if end_dt <? current_end then end_dt else current_end in
        (current_start, current_end)
        :: chunks_from fuel' chunk_days end_dt (current_end + 1)
    end
  else [].

(** The end of the chunk that starts at [current_start] (lines 104-106). *)
Definition chunk_end (chunk_days end_dt current_start : Z) : Z :=
  if end_dt <? current_start + chunk_days then end_dt
  else current_start + chunk_days.

Definition chunk_ranges (chunk_days start_dt end_dt : Z) : list (Z * Z) :=
  chunks_from (passes_bound start_dt end_dt) chunk_days end_dt start_dt.

Definition chunk_days_of (timespan : string) : Z :=
  if (timespan =? "minute")%string then 7 else 30.

Definition chunk_text (c : Z * Z) : string * string :=
  (strftime (fst c), strftime (snd c)).





(** The number of calendar days a chunk covers, both ends included. *)
Definition calendar_days (c : Z * Z) : Z := snd c - fst c + 1.

Fixpoint intersperse {A} (sep : A) (l : list A) : list A :=
  match l with
  | [] => []
  | [x] => [x]
  | x :: l' => x :: sep :: intersperse sep l'
  end.

(** ** Concrete providers for the examples *)

(** A provider that answers from a script: the outcomes of the successive
    requests, whatever they ask; once the script is used up it has no
    records left. *)
Definition scripted {num} (req : request) (w : list (outcome num))
  : outcome num * list (outcome num) :=
  match w with
  | [] => (Aggs [], [])
  | o :: w' => (o, w')
  end.

Definition no_clock {W : Type} (seconds : Z) (w : W) : W := w.

Definition bar (t : Z) : Agg Z :=
  {| agg_timestamp := t; agg_open := PyNum 1; agg_high := PyNum 2;
     agg_low := PyNum 3; agg_close := PyNum 4; agg_volume := PyNum 5;
     agg_vwap := None; agg_transactions := Some (PyNum 6) |}.

(** Three chunks of minute bars for 2024-01-01 to 2024-01-20, in time
    order; [1704067200000] is 2024-01-01 00:00 UTC. *)
Definition sorted_script : list (outcome Z) :=
  [Aggs [bar 1704067200000; bar 1704067260000];
   Aggs [bar 1704758400000];
   Aggs [bar 1705449600000; bar 1705449660000]].



(** The rows of [df] fall in the time interval of the chunk [c]: from the
    start of its first day to the start of the day after its last day.
    [day_start] gives the instant at which a day starts. *)
Definition in_window {num} (day_start : Z -> Z) (c : Z * Z)
    (df : DataFrame num) : Prop :=
  forall r, In r df ->
    day_start (fst c) <= timestamp r < day_start (snd c + 1).

(** Milliseconds from the epoch to the start of a day in UTC; 719163 is
    the ordinal of 1970-01-01. *)
Definition utc_day_start (ordinal : Z) : Z := (ordinal - 719163) * 86400000.

(** The three parts of a run. *)
Definition run_value {A E W} (run : A * list E * W) : A := fst (fst run).
Definition run_trace {A E W} (run : A * list E * W) : list E := snd (fst run).
Definition run_world {A E W} (run : A * list E * W) : W := snd run.

(** ** [validate_date] (lines 211-225) and further views of a run *)

(** [True] when [strptime] accepts the text, [False] when it raises
    ValueError. *)
Definition validate_date (date_text : string) : bool :=
  match strptime date_text with
  | Some _ => true
  | None => false
  end.

(** The seconds spent in [time.sleep] during a run. *)
Definition wait_seconds (a : action) : Z :=
  match a with
  | Wait n => n
  | Call => 0
  end.

Definition seconds_slept {num} (tr : list (event num)) : Z :=
  fold_right Z.add 0 (map wait_seconds (schedule tr)).


(** ** The interactive front end: [get_date_input] and [main]

    The text typed at the prompts is ASCII text, one byte for a character:
    [upper], [lower], [isdigit] and [int] below are those of ASCII. *)

Definition upper_char (c : ascii) : ascii :=
  let n := N_of_ascii c in
  if ((97 <=? n) && (n <=? 122))%N then ascii_of_N (n - 32) else c.

Definition lower_char (c : ascii) : ascii :=
  let n := N_of_ascii c in
  if ((65 <=? n) && (n <=? 90))%N then ascii_of_N (n + 32) else c.

Fixpoint upper (s : string) : string :=
  match s with
  | EmptyString => EmptyString
  | String c s' => String (upper_char c) (upper s')
  end.

Fixpoint lower (s : string) : string :=
  match s with
  | EmptyString => EmptyString
  | String c s' => String (lower_char c) (lower s')
  end.

Fixpoint all_digits (s : string) : bool :=
  match s with
  | EmptyString => true
  | String c s' =>
      match digit_val c with
      | Some _ => all_digits s'
      | None => false
      end
  end.

(** [s.isdigit()]: some character, and digits only. *)
Definition isdigit (s : string) : bool :=
  match s with
  | EmptyString => false
  | String _ _ => all_digits s
  end.

(** [int(s)] for a string of digits, the only ones [main] applies it to;
    the digits read up to [s] are [acc]. *)
Fixpoint int_acc (acc : Z) (s : string) : Z :=
  match s with
  | EmptyString => acc
  | String c s' =>
      match digit_val c with
      | Some d => int_acc (10 * acc + d) s'
      | None => acc
      end
  end.

Definition int_ (s : string) : Z := int_acc 0 s.

(** [d.get(key, default)] on a dict given by its items. *)
Fixpoint dict_get (d : list (string * string)) (key default : string)
  : string :=
  match d with
  | [] => default
  | (k, v) :: d' => if (k =? key)%string then v else dict_get d' key default
  end.

Definition timespan_map : list (string * string) :=
  [("1", "minute"); ("2", "hour"); ("3", "day"); ("4", "week");
   ("5", "month"); ("", "day")]%string.

Definition multiplier_options : list string := ["1"; "5"; "15"; "30"]%string.

(** Line 309: the option chosen, or "1". *)
Definition chosen_multiplier (mult_choice : string) : string :=
  if isdigit mult_choice
     && (1 <=? int_ mult_choice) && (int_ mult_choice <=? 4)
  then nth (Z.to_nat (int_ mult_choice - 1)) multiplier_options "1"%string
  else "1"%string.

(** The texts printed by [input] before it reads, by their place. *)
Inductive prompt : Type :=
  | PromptTicker                                          (* line 253 *)
  | PromptDate (text : string) (default : option string)  (* lines 240, 244 *)
  | PromptTimespan                                        (* line 281 *)
  | PromptMultiplier                                      (* line 307 *)
  | PromptSaveChart                                       (* line 335 *)
  | PromptSaveCsv.                                        (* line 342 *)

(** The lines printed by [get_date_input] and [main] themselves. *)
Inductive main_message : Type :=
  | MsgLine (line : Z)             (* a fixed text, by the line of its print *)
  | MsgInvalidDate                                        (* line 249 *)
  | MsgNoDataRetrieved                                    (* line 325 *)
  | MsgRetrievedPoints (n : nat)                          (* line 328 *)
  | MsgChartSaved (filename : string)                     (* line 339 *)
  | MsgDataSaved (filename : string).                     (* line 346 *)

(** What stops [main] before its end: an exception nobody catches. *)
Inductive main_exn : Type :=
  | EngineError (e : exn)
  | EOFError.

Inductive halt : Type :=
  | Uncaught (e : main_exn)
  | NoFuel.

Section Main.

Variable num : Type.
Variable W : Type.
Variable list_aggs : request -> W -> outcome num * W.
Variable sleep_world : Z -> W -> W.

Inductive main_event : Type :=
  | Engine (ev : event num)        (* an event of the two fetch functions *)
  | Say (m : main_message)
  | Input (p : prompt) (answer : string)
  | InputEOF (p : prompt)          (* [input] at the end of the input *)
  | PlotCandlestick (df : DataFrame num) (ticker : string) (* line 331 *)
  | FigShow                                               (* line 332 *)
  | WriteHtml (filename : string)                         (* line 338 *)
  | ToCsv (df : DataFrame num) (filename : string).       (* line 345 *)

(** A computation of the front end runs on the lines still to be read and
    the provider's world; it gives a value or stops on an exception. *)
Definition MainM (A : Type) : Type :=
  list string * W -> (A + halt) * list main_event * (list string * W).

Definition mret {A} (a : A) : MainM A := fun st => (inl a, [], st).

Definition mbind {A B} (m : MainM A) (f : A -> MainM B) : MainM B :=
  fun st =>
    let '(r, t1, st1) := m st in
    match r with
    | inl a => let '(b, t2, st2) := f a st1 in (b, t1 ++ t2, st2)
    | inr h => (inr h, t1, st1)
    end.

Notation "x <-- m ;; k" := (mbind m (fun x => k))
  (at level 61, m at next level, right associativity).
Notation "m ;;; k" := (mbind m (fun _ => k))
  (at level 61, right associativity).

Definition emit (ev : main_event) : MainM unit := fun st => (inl tt, [ev], st).

Definition say (m : main_message) : MainM unit := emit (Say m).

(** [input(p)]: the next line, or EOFError when there is none. *)
Definition input (p : prompt) : MainM string :=
  fun st =>
    match fst st with
    | [] => (inr (Uncaught EOFError), [InputEOF p], st)
    | answer :: rest => (inl answer, [Input p answer], (rest, snd st))
    end.

(** A computation of the fetch functions, run inside the front end. *)
Definition lift {A} (m : W -> A * list (event num) * W) : MainM A :=
  fun st =>
    let '(a, tr, w) := m (snd st) in (inl a, map Engine tr, (fst st, w)).

Definition lift_result {A} (m : W -> result A * list (event num) * W)
  : MainM A :=
  fun st =>
    let '(r, tr, w) := m (snd st) in
    (match r with
     | Returned a => inl a
     | Raised e => inr (Uncaught (EngineError e))
     | OutOfFuel => inr NoFuel
     end, map Engine tr, (fst st, w)).

(** *** [get_date_input] (lines 227-249) *)

(** [if default:] holds for a default that is a string with some
    character. *)
Definition truthy (default : option string) : option string :=
  match default with
  | Some (String c s) => Some (String c s)
  | _ => None
  end.

(** The [while True] loop, on the lines still to be read: each pass reads
    one. *)
Fixpoint get_date_input_from (text : string) (default : option string)
    (lines : list string)
  : (string + halt) * list main_event * list string :=
  let p := PromptDate text (truthy default) in
  match lines with
  | [] => (inr (Uncaught EOFError), [InputEOF p], [])
  | date_str :: rest =>
      match truthy default, date_str with
      | Some d, EmptyString => (inl d, [Input p date_str], rest)
      | _, _ =>
          if validate_date date_str
          then (inl date_str, [Input p date_str], rest)
          else
            let '(r, tr, rest') := get_date_input_from text default rest in
            (r, Input p date_str :: Say MsgInvalidDate :: tr, rest')
      end
  end.

Definition get_date_input (text : string) (default : option string)
  : MainM string :=
  fun st =>
    let '(r, tr, rest) := get_date_input_from text default (fst st) in
    (r, tr, (rest, snd st)).

(** *** [main] (lines 251-346)

    [now1] and [now2] are the days of the two readings of the clock, at
    lines 256 and 263.  The body is cut at lines 272, 313 and 322. *)

(** Lines 253-272: the ticker and the two dates, in order as strings. *)
Definition main_dates (now1 now2 : Z) : MainM (string * string * string) :=
  answer <-- input PromptTicker ;;
  let ticker := upper answer in
  let today := strftime now1 in
  say (MsgLine 259) ;;;
  say (MsgLine 260) ;;;
  let default_start := strftime (now2 - 365) in
  start_date <-- get_date_input "Enter start date" (Some default_start) ;;
  end_date <-- get_date_input "Enter end date" (Some today) ;;
  if str_gt start_date end_date
  then lift (print MsgSwapping) ;;; mret (ticker, end_date, start_date)
  else mret (ticker, start_date, end_date).

(** Lines 274-313: the timespan and the multiplier, still a string. *)
Definition main_options : MainM (string * string) :=
  say (MsgLine 275) ;;; say (MsgLine 276) ;;; say (MsgLine 277) ;;;
  say (MsgLine 278) ;;; say (MsgLine 279) ;;; say (MsgLine 280) ;;;
  timespan_choice <-- input PromptTimespan ;;
  let timespan := dict_get timespan_map timespan_choice "day" in
  if (timespan =? "minute")%string || (timespan =? "hour")%string
  then
    say (MsgLine 296) ;;; say (MsgLine 297) ;;;
    if (timespan =? "minute")%string
    then
      say (MsgLine 302) ;;; say (MsgLine 303) ;;; say (MsgLine 304) ;;;
      say (MsgLine 305) ;;; say (MsgLine 306) ;;;
      mult_choice <-- input PromptMultiplier ;;
      mret (timespan, chosen_multiplier mult_choice)
    else mret (timespan, "1"%string)
  else mret (timespan, "1"%string).

(** Lines 315-322: the fetch. *)
Definition main_data (ticker start_date end_date timespan multiplier : string)
  : MainM (DataFrame num) :=
  lift (print (MsgFetching (int_ multiplier) timespan ticker
                           start_date end_date)) ;;;
  if (timespan =? "minute")%string || (timespan =? "hour")%string
  then lift_result (get_paginated_data list_aggs sleep_world ticker
                      start_date end_date timespan (int_ multiplier))
  else lift (get_historical_data list_aggs ticker start_date end_date
                                 timespan (int_ multiplier)).

Definition chart_filename (ticker timespan start_date end_date : string)
  : string :=
  (ticker ++ "_" ++ timespan ++ "_" ++ start_date ++ "_to_" ++ end_date
   ++ ".html")%string.

Definition csv_filename (ticker timespan start_date end_date : string)
  : string :=
  (ticker ++ "_" ++ timespan ++ "_" ++ start_date ++ "_to_" ++ end_date
   ++ ".csv")%string.

(** Lines 324-346: the chart and the two files. *)
Definition main_report (ticker start_date end_date timespan : string)
    (df : DataFrame num) : MainM unit :=
  if empty df then say MsgNoDataRetrieved
  else
    say (MsgRetrievedPoints (List.length df)) ;;;
    emit (PlotCandlestick df ticker) ;;;
    emit FigShow ;;;
    save_option <-- input PromptSaveChart ;;
    (if (lower save_option =? "y")%string
     then
       let filename := chart_filename ticker timespan start_date end_date in
       emit (WriteHtml filename) ;;; say (MsgChartSaved filename)
     else mret tt) ;;;
    save_csv <-- input PromptSaveCsv ;;
    if (lower save_csv =? "y")%string
    then
      let filename := csv_filename ticker timespan start_date end_date in
      emit (ToCsv df filename) ;;; say (MsgDataSaved filename)
    else mret tt.

Definition main (now1 now2 : Z) : MainM unit :=
  dates <-- main_dates now1 now2 ;;
  let '(ticker, start_date, end_date) := dates in
  options <-- main_options ;;
  let '(timespan, multiplier) := options in
  df <-- main_data ticker start_date end_date timespan multiplier ;;
  main_report ticker start_date end_date timespan df.

End Main.

Arguments Engine {num} ev.
Arguments Say {num} m.
Arguments Input {num} p answer.
Arguments InputEOF {num} p.
Arguments PlotCandlestick {num} df ticker.
Arguments FigShow {num}.
Arguments WriteHtml {num} filename.
Arguments ToCsv {num} df filename.
Arguments mret {num W A} a.
Arguments mbind {num W A B} m f.
Arguments emit {num W} ev.
Arguments say {num W} m.
Arguments input {num W} p.
Arguments lift {num W A} m.
Arguments lift_result {num W A} m.
Arguments get_date_input_from {num} text default lines.
Arguments get_date_input {num W} text default.
Arguments main_dates {num W} now1 now2.
Arguments main_options {num W}.
Arguments main_data {num W} list_aggs sleep_world
  ticker start_date end_date timespan multiplier.
Arguments main_report {num W} ticker start_date end_date timespan df.
Arguments main {num W} list_aggs sleep_world now1 now2.

(** The text of a date with month and day written without a leading
    zero when they are below 10, as [strptime] also reads them. *)
Definition plain2 (n : Z) (rest : string) : string :=
  if n <? 10 then String (digit_char n) rest else pad2 n rest.

Definition plain_text (year month day : Z) : string :=
  pad4 year (String "-" (plain2 month (String "-" (plain2 day EmptyString)))).

(** *** Views of the front end used to state its properties *)

(** An answer that ends the loop of [get_date_input]: nothing typed when
    there is a default, or a date that [validate_date] accepts. *)
Definition acceptable (default : option string) (answer : string) : bool :=
  match truthy default, answer with
  | Some _, EmptyString => true
  | _, _ => validate_date answer
  end.

(** What [get_date_input] returns for such an answer. *)
Definition answer_of (default : option string) (answer : string) : string :=
  match truthy default, answer with
  | Some d, EmptyString => d
  | _, _ => answer
  end.

(** The requests [main] is meant to make. *)
Definition good_request (r : request) : Prop :=
  In (timespan r) ["minute"; "hour"; "day"; "week"; "month"]%string
  /\ In (multiplier r) [1; 5; 15; 30]
  /\ (multiplier r <> 1 -> timespan r = "minute"%string)
  /\ limit r = 50000.

(** A run of the front end all of whose events satisfy [E] and which ends
    with a value that satisfies [Q], or with EOFError. *)
Definition keeps {num W A}
    (run : (A + halt) * list (main_event num) * (list string * W))
    (E : main_event num -> Prop) (Q : A -> Prop) : Prop :=
  Forall E (run_trace run)
  /\ match run_value run with
     | inl a => Q a
     | inr h => h = Uncaught EOFError
     end.

(** What every event of [main] satisfies: its requests are good ones
    with two dates that [validate_date] accepts, and the frame it plots or
    writes has rows. *)
Definition main_invariant {num} (ev : main_event num) : Prop :=
  match ev with
  | Engine (ListAggs r _) =>
      good_request r
      /\ validate_date (from_ r) = true /\ validate_date (to r) = true
  | PlotCandlestick df _ => df <> []
  | ToCsv df _ => df <> []
  | _ => True
  end.




(** What a user may type: the ticker, nothing for the start date (the
    default), a wrong and then a right end date, minute bars, the second
    multiplier, the chart saved and the data not. *)
Definition typed_lines : list string :=
  ["aapl"; ""; "20 January"; "2024-01-20"; "1"; "2"; "y"; "n"]%string.

(** * Properties *)

(** ** Dates and their text *)

Lemma days_before_year_succ y :
  days_before_year (y + 1) = days_before_year y + 365 + (if is_leap y then 1 else 0).
Proof.
  unfold days_before_year, is_leap. cbv zeta.
  replace (y + 1 - 1) with y by lia.
  destruct (Z.eqb_spec (y mod 4) 0); destruct (Z.eqb_spec (y mod 100) 0);
  destruct (Z.eqb_spec (y mod 400) 0); simpl; Z.div_mod_to_equations; lia.
Qed.

Lemma days_before_year_mono y1 y2 :
  y1 <= y2 -> days_before_year y1 <= days_before_year y2.
Proof.
  unfold days_before_year. cbv zeta. intros H. Z.div_mod_to_equations; lia.
Qed.

Lemma digit_compare a b :
  Ascii.compare (digit_char a) (digit_char b) = (a mod 10 ?= b mod 10).
Proof.
  unfold Ascii.compare, digit_char.
  assert (Ha := Z.mod_pos_bound a 10 eq_refl).
  assert (Hb := Z.mod_pos_bound b 10 eq_refl).
  rewrite !N_ascii_embedding by lia.
  rewrite Z2N.inj_compare by lia.
  apply Z.add_compare_mono_l.
Qed.

Lemma digit_val_char a : digit_val (digit_char a) = Some (a mod 10).
Proof.
  unfold digit_val, digit_char.
  assert (Ha := Z.mod_pos_bound a 10 eq_refl).
  rewrite N_ascii_embedding by lia. rewrite Z2N.id by lia.
  destruct (Z.leb_spec 48 (48 + a mod 10)); [|lia].
  destruct (Z.leb_spec (48 + a mod 10) 57); [|lia].
  cbn [andb]. f_equal. lia.
Qed.

Lemma compare_pad2 n1 n2 r1 r2 :
  String.compare (pad2 n1 r1) (pad2 n2 r2)
  = match n1 mod 100 ?= n2 mod 100 with
    | Eq => String.compare r1 r2
    | c => c
    end.
Proof.
  unfold pad2. cbn [String.compare]. rewrite !digit_compare.
  destruct (Z.compare_spec ((n1 / 10) mod 10) ((n2 / 10) mod 10));
  destruct (Z.compare_spec (n1 mod 10) (n2 mod 10));
  destruct (Z.compare_spec (n1 mod 100) (n2 mod 100));
  try reflexivity; exfalso; Z.div_mod_to_equations; lia.
Qed.

Lemma compare_pad4 n1 n2 r1 r2 :
  String.compare (pad4 n1 r1) (pad4 n2 r2)
  = match n1 mod 10000 ?= n2 mod 10000 with
    | Eq => String.compare r1 r2
    | c => c
    end.
Proof.
  unfold pad4. cbn [String.compare]. rewrite !digit_compare, compare_pad2.
  destruct (Z.compare_spec ((n1 / 1000) mod 10) ((n2 / 1000) mod 10));
  destruct (Z.compare_spec ((n1 / 100) mod 10) ((n2 / 100) mod 10));
  destruct (Z.compare_spec (n1 mod 100) (n2 mod 100));
  destruct (Z.compare_spec (n1 mod 10000) (n2 mod 10000));
  try reflexivity; exfalso; Z.div_mod_to_equations; lia.
Qed.


Lemma valid_date_spec y m d :
  valid_date y m d = true <->
  1 <= y <= 9999 /\ 1 <= m <= 12 /\ 1 <= d <= days_in_month y m.
Proof.
  unfold valid_date. rewrite !andb_true_iff, !Z.leb_le. lia.
Qed.

Ltac month_cases m :=
  let H := fresh in
  assert (H : m = 1 \/ m = 2 \/ m = 3 \/ m = 4 \/ m = 5 \/ m = 6 \/ m = 7
              \/ m = 8 \/ m = 9 \/ m = 10 \/ m = 11 \/ m = 12) by lia;
  repeat (destruct H as [H|H]; [subst m|]); [..|subst m].

Ltac month_tables :=
  repeat match goal with
  | |- context [nth (Z.to_nat ?k) ?l 0] =>
      let v := eval vm_compute in (nth (Z.to_nat k) l 0) in
      change (nth (Z.to_nat k) l 0) with v
  | H : context [nth (Z.to_nat ?k) ?l 0] |- _ =>
      let v := eval vm_compute in (nth (Z.to_nat k) l 0) in
      change (nth (Z.to_nat k) l 0) with v in H
  end.

Ltac month_tests :=
  cbn [Z.eqb Pos.eqb Z.ltb Z.compare Pos.compare Pos.compare_cont andb] in *.

Lemma day_of_year_bound y m d :
  1 <= m <= 12 -> 1 <= d <= days_in_month y m ->
  1 <= days_before_month y m + d <= 365 + (if is_leap y then 1 else 0).
Proof.
  intros Hm Hd. unfold days_in_month, days_before_month in *.
  month_cases m; month_tables; month_tests;
    destruct (is_leap y); month_tests; lia.
Qed.






Lemma parse_month_pad2 m rest :
  1 <= m <= 12 -> parse_month (pad2 m (String "-" rest)) = Some (m, rest).
Proof.
  intros Hm. unfold parse_month, pad2. rewrite !digit_val_char.
  assert (Hx : (m / 10) mod 10 = m / 10) by (Z.div_mod_to_equations; lia).
  assert (Hy : 10 * (m / 10) + m mod 10 = m) by (Z.div_mod_to_equations; lia).
  rewrite Hx.
  destruct (Z.eqb_spec (m / 10) 1) as [E1|E1];
    destruct (Z.leb_spec (m mod 10) 2) as [E2|E2];
    destruct (Z.eqb_spec (m / 10) 0) as [E3|E3];
    destruct (Z.leb_spec 1 (m mod 10)) as [E4|E4];
    cbn [andb orb]; try (rewrite Hy; reflexivity);
    exfalso; Z.div_mod_to_equations; lia.
Qed.

Lemma parse_day_pad2 d :
  1 <= d <= 31 -> parse_day (pad2 d EmptyString) = Some d.
Proof.
  intros Hd. unfold parse_day, pad2. rewrite !digit_val_char.
  assert (Hx : (d / 10) mod 10 = d / 10) by (Z.div_mod_to_equations; lia).
  assert (Hy : 10 * (d / 10) + d mod 10 = d) by (Z.div_mod_to_equations; lia).
  rewrite Hx.
  destruct (Z.eqb_spec (d / 10) 3) as [E1|E1];
    destruct (Z.leb_spec (d mod 10) 1) as [E2|E2];
    destruct (Z.eqb_spec (d / 10) 1) as [E3|E3];
    destruct (Z.eqb_spec (d / 10) 2) as [E4|E4];
    destruct (Z.eqb_spec (d / 10) 0) as [E5|E5];
    destruct (Z.leb_spec 1 (d mod 10)) as [E6|E6];
    cbn [andb orb]; try (rewrite Hy; reflexivity);
    exfalso; Z.div_mod_to_equations; lia.
Qed.

Lemma days_in_month_max y m : 1 <= m <= 12 -> days_in_month y m <= 31.
Proof.
  intros Hm. unfold days_in_month.
  month_cases m; month_tables; month_tests; destruct (is_leap y); lia.
Qed.

(** Reading back the text of a valid date gives its ordinal. *)
Lemma strptime_isoformat y m d :
  valid_date y m d = true ->
  strptime (isoformat y m d) = Some (ymd2ord y m d).
Proof.
  intros Hv. pose proof Hv as Hv'. apply valid_date_spec in Hv'.
  destruct Hv' as (Hy & Hm & Hd).
  pose proof (days_in_month_max y m Hm) as Hmax.
  unfold strptime, isoformat, pad4. unfold pad2 at 1. cbv beta iota.
  rewrite !digit_val_char. cbv beta iota.
  rewrite Ascii.eqb_refl.
  rewrite parse_month_pad2 by assumption.
  rewrite parse_day_pad2 by lia.
  replace (1000 * ((y / 1000) mod 10) + 100 * ((y / 100) mod 10)
           + 10 * ((y / 10) mod 10) + y mod 10) with y
    by (Z.div_mod_to_equations; lia).
  rewrite Hv. reflexivity.
Qed.

(** *** [strftime] and [strptime] are inverse to each other *)

Lemma forallb_range (P : Z -> bool) (k : nat) :
  forallb P (map Z.of_nat (seq 0 k)) = true ->
  forall n, 0 <= n < Z.of_nat k -> P n = true.
Proof.
  intros H n Hn. rewrite forallb_forall in H. apply H.
  apply in_map_iff. exists (Z.to_nat n). split; [lia|].
  apply in_seq. lia.
Qed.

Lemma month_and_day_correct leapyear n :
  0 <= n < 365 -> month_and_day_ok leapyear n = true.
Proof.
  intros Hn. destruct leapyear;
    (apply (forallb_range _ 365); [vm_compute; reflexivity | exact Hn]).
Qed.

Lemma year_decomposed a b c d :
  0 <= b <= 3 -> 0 <= c <= 24 -> 0 <= d <= 3 ->
  let year := 400 * a + 100 * b + 4 * c + d + 1 in
  is_leap year = (d =? 3) && (negb (c =? 24) || (b =? 3))
  /\ days_before_year year = 146097 * a + 36524 * b + 1461 * c + 365 * d.
Proof.
  intros Hb Hc Hd year. subst year. unfold is_leap, days_before_year.
  cbv zeta. split.
  - destruct (Z.eqb_spec ((400 * a + 100 * b + 4 * c + d + 1) mod 4) 0);
    destruct (Z.eqb_spec ((400 * a + 100 * b + 4 * c + d + 1) mod 100) 0);
    destruct (Z.eqb_spec ((400 * a + 100 * b + 4 * c + d + 1) mod 400) 0);
    destruct (Z.eqb_spec d 3); destruct (Z.eqb_spec c 24);
    destruct (Z.eqb_spec b 3); cbn [andb orb negb]; try reflexivity;
    exfalso; Z.div_mod_to_equations; lia.
  - Z.div_mod_to_equations; lia.
Qed.

Lemma ord2ymd_correct n :
  1 <= n <= 3652059 ->
  let '(y, m, d) := ord2ymd n in
  valid_date y m d = true /\ ymd2ord y m d = n.
Proof.
  intros Hn. unfold ord2ymd, DI400Y, DI100Y, DI4Y. cbv zeta.
  set (n0 := n - 1).
  set (n400 := n0 / 146097). set (r400 := n0 mod 146097).
  set (n100 := r400 / 36524). set (r100 := r400 mod 36524).
  set (n4 := r100 / 1461). set (r4 := r100 mod 1461).
  set (n1 := r4 / 365). set (r1 := r4 mod 365).
  assert (H400 : n0 = 146097 * n400 + r400 /\ 0 <= r400 < 146097)
    by (subst n400 r400; Z.div_mod_to_equations; lia).
  assert (H100 : r400 = 36524 * n100 + r100 /\ 0 <= r100 < 36524)
    by (subst n100 r100; Z.div_mod_to_equations; lia).
  assert (H4 : r100 = 1461 * n4 + r4 /\ 0 <= r4 < 1461)
    by (subst n4 r4; Z.div_mod_to_equations; lia).
  assert (H1 : r4 = 365 * n1 + r1 /\ 0 <= r1 < 365)
    by (subst n1 r1; Z.div_mod_to_equations; lia).
  assert (Hn0 : n = n0 + 1 /\ 0 <= n0 <= 3652058) by (subst n0; lia).
  clearbody n0 n400 r400 n100 r100 n4 r4 n1 r1.
  assert (Hb : 0 <= n400 <= 24 /\ 0 <= n100 <= 4 /\ 0 <= n4 <= 24
               /\ 0 <= n1 <= 4) by lia.
  destruct (Z.eqb_spec n1 4) as [E1|E1];
    [|destruct (Z.eqb_spec n100 4) as [E100|E100]]; cbn [orb].
  - (* the last day of a leap year that is not the end of a century *)
    destruct (year_decomposed n400 n100 n4 3) as [Hleap Hdby]; try lia.
    replace (n400 * 400 + 1 + n100 * 100 + n4 * 4 + n1 - 1)
      with (400 * n400 + 100 * n100 + 4 * n4 + 3 + 1) by lia.
    assert (Hl : is_leap (400 * n400 + 100 * n100 + 4 * n4 + 3 + 1) = true).
    { rewrite Hleap. destruct (Z.eqb_spec n4 24); [lia|reflexivity]. }
    split.
    + apply valid_date_spec. unfold days_in_month.
      change (12 =? 2) with false. cbn [andb]. 
      change (nth (Z.to_nat 12) DAYS_IN_MONTH 0) with 31. lia.
    + unfold ymd2ord, days_before_month. rewrite Hdby, Hl.
      change (nth (Z.to_nat 12) DAYS_BEFORE_MONTH 0) with 334.
      change (2 <? 12) with true. cbn [andb]. lia.
  - (* the last day of a cycle of 400 years *)
    destruct (year_decomposed n400 3 24 3) as [Hleap Hdby]; try lia.
    replace (n400 * 400 + 1 + n100 * 100 + n4 * 4 + n1 - 1)
      with (400 * n400 + 100 * 3 + 4 * 24 + 3 + 1) by lia.
    assert (Hl : is_leap (400 * n400 + 100 * 3 + 4 * 24 + 3 + 1) = true)
      by (rewrite Hleap; reflexivity).
    split.
    + apply valid_date_spec. unfold days_in_month.
      change (12 =? 2) with false. cbn [andb]. 
      change (nth (Z.to_nat 12) DAYS_IN_MONTH 0) with 31. lia.
    + unfold ymd2ord, days_before_month. rewrite Hdby, Hl.
      change (nth (Z.to_nat 12) DAYS_BEFORE_MONTH 0) with 334.
      change (2 <? 12) with true. cbn [andb]. lia.
  - destruct (year_decomposed n400 n100 n4 n1) as [Hleap Hdby]; try lia.
    replace (n400 * 400 + 1 + n100 * 100 + n4 * 4 + n1)
      with (400 * n400 + 100 * n100 + 4 * n4 + n1 + 1) by lia.
    set (year := 400 * n400 + 100 * n100 + 4 * n4 + n1 + 1) in *.
    rewrite <- Hleap.
    pose proof (month_and_day_correct (is_leap year) r1 (proj2 H1)) as Hok.
    unfold month_and_day_ok in Hok.
    destruct (month_and_day (is_leap year) r1) as [m d].
    rewrite !andb_true_iff, !Z.leb_le, Z.eqb_eq in Hok.
    split.
    + apply valid_date_spec. unfold days_in_month. subst year. lia.
    + unfold ymd2ord, days_before_month. rewrite Hdby. lia.
Qed.

Lemma strptime_strftime n :
  1 <= n <= 3652059 -> strptime (strftime n) = Some n.
Proof.
  intros Hn. unfold strftime.
  pose proof (ord2ymd_correct n Hn) as H.
  destruct (ord2ymd n) as [[y m] d]. destruct H as [Hv <-].
  apply strptime_isoformat. exact Hv.
Qed.

Lemma ymd2ord_range y m d :
  valid_date y m d = true -> 1 <= ymd2ord y m d <= 3652059.
Proof.
  intros Hv. apply valid_date_spec in Hv. destruct Hv as (Hy & Hm & Hd).
  pose proof (day_of_year_bound y m d Hm Hd).
  pose proof (days_before_year_succ y).
  pose proof (days_before_year_mono 1 y) as Hlo.
  pose proof (days_before_year_mono (y + 1) 10000) as Hhi.
  change (days_before_year 1) with 0 in Hlo.
  change (days_before_year 10000) with 3652059 in Hhi.
  unfold ymd2ord. lia.
Qed.

Lemma strptime_range sd s :
  strptime sd = Some s -> 1 <= s <= 3652059.
Proof.
  unfold strptime. intros H.
  repeat match type of H with
         | match ?x with _ => _ end = Some _ =>
             destruct x eqn:?; try discriminate H
         | (if ?x then _ else _) = Some _ =>
             destruct x eqn:?; try discriminate H
         end.
  injection H as <-. now apply ymd2ord_range.
Qed.

(** ** The chunks of a range *)

Section Chunks.

Variable chunk_days : Z.
Hypothesis chunk_days_nonneg : 0 <= chunk_days.
Variable end_dt : Z.

Local Abbreviation chunk_end := (chunk_end chunk_days end_dt).

Lemma chunk_end_bounds (cs : Z) :
  cs <= end_dt ->
  cs <= chunk_end cs <= end_dt /\ chunk_end cs - cs <= chunk_days.
Proof.
  intros Hle. unfold chunk_end.
  destruct (end_dt <? cs + chunk_days) eqn:E.
  - apply Z.ltb_lt in E. lia.
  - apply Z.ltb_ge in E. lia.
Qed.

Lemma chunks_from_done (fuel : nat) (cs : Z) :
  end_dt < cs -> chunks_from fuel chunk_days end_dt cs = [].
Proof.
  intros Hlt. destruct fuel; simpl;
    (destruct (cs <=? end_dt) eqn:E; [apply Z.leb_le in E; lia | reflexivity]).
Qed.

Lemma chunks_from_step (fuel : nat) (cs : Z) :
  cs <= end_dt ->
  chunks_from (S fuel) chunk_days end_dt cs
  = (cs, chunk_end cs) :: chunks_from fuel chunk_days end_dt (chunk_end cs + 1).
Proof.
  intros Hle. simpl. apply Z.leb_le in Hle. rewrite Hle. reflexivity.
Qed.

(** With fuel for every day that is left, the chunks of the model are
    those of the loop: more fuel changes nothing. *)
Lemma chunks_from_fuel (fuel fuel' : nat) (cs : Z) :
  (passes_bound cs end_dt <= fuel)%nat ->
  (passes_bound cs end_dt <= fuel')%nat ->
  chunks_from fuel chunk_days end_dt cs
  = chunks_from fuel' chunk_days end_dt cs.
Proof.
  unfold passes_bound. revert fuel' cs.
  induction fuel as [|fuel IH]; intros fuel' cs H1 H2.
  - rewrite !chunks_from_done by lia. reflexivity.
  - destruct (Z_lt_le_dec end_dt cs) as [Hlt|Hle].
    + rewrite !chunks_from_done by lia. reflexivity.
    + destruct fuel' as [|fuel']; [lia|].
      rewrite !chunks_from_step by assumption.
      pose proof (chunk_end_bounds cs Hle) as Hb.
      f_equal. apply IH; lia.
Qed.

Lemma chunk_ranges_step (cs : Z) :
  cs <= end_dt ->
  chunk_ranges chunk_days cs end_dt
  = (cs, chunk_end cs) :: chunk_ranges chunk_days (chunk_end cs + 1) end_dt.
Proof.
  intros Hle. unfold chunk_ranges.
  pose proof (chunk_end_bounds cs Hle) as Hb.
  assert (Hfuel : passes_bound cs end_dt
                  = S (Nat.pred (passes_bound cs end_dt)))
    by (unfold passes_bound; lia).
  rewrite Hfuel, chunks_from_step by assumption.
  f_equal. apply chunks_from_fuel; unfold passes_bound; lia.
Qed.

Lemma chunk_ranges_done (cs : Z) :
  end_dt < cs -> chunk_ranges chunk_days cs end_dt = [].
Proof. intros Hlt. unfold chunk_ranges. now apply chunks_from_done. Qed.

(** Induction along the loop: from a cursor past the end there is nothing
    to do, and a pass from [cs] leaves the range from [chunk_end cs + 1]. *)
Lemma cursor_ind (P : Z -> Prop) :
  (forall cs, end_dt < cs -> P cs) ->
  (forall cs, cs <= end_dt -> P (chunk_end cs + 1) -> P cs) ->
  forall cs, P cs.
Proof.
  intros Hdone Hstep cs.
  remember (passes_bound cs end_dt) as n eqn:Hn.
  assert (Hb : (passes_bound cs end_dt <= n)%nat) by lia. clear Hn.
  revert cs Hb. induction n as [|n IH]; intros cs Hb.
  - apply Hdone. unfold passes_bound in Hb. lia.
  - destruct (Z_lt_le_dec end_dt cs) as [Hlt|Hle]; [now apply Hdone|].
    apply Hstep; [assumption|]. apply IH.
    pose proof (chunk_end_bounds cs Hle). unfold passes_bound in *. lia.
Qed.

Lemma chunk_ranges_bounds (cs : Z) :
  Forall (fun c => cs <= fst c /\ fst c <= snd c <= end_dt
                   /\ snd c - fst c <= chunk_days)
         (chunk_ranges chunk_days cs end_dt).
Proof.
  pattern cs. apply cursor_ind; clear cs.
  - intros cs Hlt. rewrite chunk_ranges_done by assumption. constructor.
  - intros cs Hle IH. rewrite chunk_ranges_step by assumption.
    pose proof (chunk_end_bounds cs Hle) as Hb.
    constructor; [simpl; lia|].
    eapply Forall_impl; [|exact IH]. simpl. intros c Hc. lia.
Qed.

Lemma chunk_ranges_head (cs : Z) :
  cs <= end_dt ->
  exists rest, chunk_ranges chunk_days cs end_dt = (cs, chunk_end cs) :: rest.
Proof. intros Hle. eexists. now apply chunk_ranges_step. Qed.


Lemma chunk_ranges_disjoint (cs : Z) :
  StronglySorted (fun c1 c2 => snd c1 < fst c2)
                 (chunk_ranges chunk_days cs end_dt).
Proof.
  pattern cs. apply cursor_ind; clear cs.
  - intros cs Hlt. rewrite chunk_ranges_done by assumption. constructor.
  - intros cs Hle IH. rewrite chunk_ranges_step by assumption.
    constructor; [exact IH|].
    eapply Forall_impl; [|apply chunk_ranges_bounds].
    simpl. intros c Hc. lia.
Qed.




End Chunks.

(** ** The run of the engine *)

Section EngineFacts.

Variable num : Type.
Variable W : Type.
Variable list_aggs : request -> W -> outcome num * W.
Variable sleep_world : Z -> W -> W.

Lemma get_historical_data_run tk sd ed ts mult w :
  let req := {| ticker := tk; multiplier := mult; timespan := ts;
                from_ := sd; to := ed; limit := 50000 |} in
  get_historical_data list_aggs tk sd ed ts mult w
  = (frame_of (fst (list_aggs req w)),
     [Print (MsgRequesting tk sd ed); ListAggs req (fst (list_aggs req w))]
     ++ diagnostics (fst (list_aggs req w)),
     snd (list_aggs req w)).
Proof.
  intros req. unfold get_historical_data, bind, print, client_list_aggs, ret.
  fold req. destruct (list_aggs req w) as [o w1]. simpl.
  destruct o as [[|a l]|e]; simpl; try reflexivity.
  destruct (contains "NOT_AUTHORIZED" e); [reflexivity|].
  destruct (contains "RATE_LIMIT" e); reflexivity.
Qed.

Lemma loop_body_run tk ts mult chunk_days end_dt cs all_data w :
  let c := (cs, chunk_end chunk_days end_dt cs) in
  let more := snd c + 1 <=? end_dt in
  let ow := list_aggs (chunk_request tk ts mult c) w in
  loop_body list_aggs sleep_world tk ts mult chunk_days end_dt cs all_data w
  = ((all_data ++ kept (frame_of (fst ow)), snd c + 1),
     pass_log tk ts mult c (fst ow) more,
     if more then sleep_world 12 (snd ow) else snd ow).
Proof.
  intros c more ow. subst c more ow.
  unfold loop_body, bind, pass_log, kept, chunk_request.
  fold (chunk_end chunk_days end_dt cs).
  unfold print at 1. rewrite get_historical_data_run. cbn [fst snd].
  destruct (list_aggs _ w) as [o w1]. cbn [fst snd].
  destruct (empty (frame_of o));
    destruct (chunk_end chunk_days end_dt cs + 1 <=? end_dt);
    simpl; rewrite ?app_nil_r, <- ?app_assoc; reflexivity.
Qed.

Lemma while_loop_done fuel tk ts mult chunk_days end_dt cs all_data w :
  end_dt < cs ->
  while_loop list_aggs sleep_world fuel tk ts mult chunk_days end_dt cs
             all_data w
  = (Some all_data, [], w).
Proof.
  intros Hlt. apply Z.leb_gt in Hlt.
  destruct fuel; simpl; rewrite Hlt; reflexivity.
Qed.

Lemma while_loop_step fuel tk ts mult chunk_days end_dt cs all_data :
  cs <= end_dt ->
  while_loop list_aggs sleep_world (S fuel) tk ts mult chunk_days end_dt cs
             all_data
  = bind (loop_body list_aggs sleep_world tk ts mult chunk_days end_dt cs
                    all_data)
         (fun st => while_loop list_aggs sleep_world fuel tk ts mult
                               chunk_days end_dt (snd st) (fst st)).
Proof. intros Hle. apply Z.leb_le in Hle. simpl. rewrite Hle. reflexivity. Qed.

Lemma chunk_ranges_more chunk_days end_dt cs :
  0 <= chunk_days ->
  match chunk_ranges chunk_days cs end_dt with
  | [] => false
  | _ :: _ => true
  end = (cs <=? end_dt).
Proof.
  intros Hcap. destruct (Z_lt_le_dec end_dt cs) as [Hlt|Hle].
  - rewrite chunk_ranges_done by assumption. symmetry. now apply Z.leb_gt.
  - destruct (chunk_ranges_head chunk_days Hcap end_dt cs Hle) as [rest ->].
    symmetry. now apply Z.leb_le.
Qed.

(** The loop does what the plan says: it goes through the chunks of the
    range in order, and it does not run out of fuel. *)
Lemma while_loop_run tk ts mult chunk_days end_dt :
  0 <= chunk_days ->
  forall cs fuel all_data w,
    (passes_bound cs end_dt <= fuel)%nat ->
    while_loop list_aggs sleep_world fuel tk ts mult chunk_days end_dt cs
               all_data w
    = let '(r, tr, w') :=
        plan_run list_aggs sleep_world tk ts mult
                 (chunk_ranges chunk_days cs end_dt) all_data w in
      (Some r, tr, w').
Proof.
  intros Hcap cs. pattern cs.
  apply (cursor_ind chunk_days Hcap end_dt); clear cs.
  - intros cs Hlt fuel all_data w _.
    rewrite while_loop_done, chunk_ranges_done by assumption. reflexivity.
  - intros cs Hle IH fuel all_data w Hfuel.
    pose proof (chunk_end_bounds chunk_days Hcap end_dt cs Hle) as Hb.
    destruct fuel as [|fuel]; [unfold passes_bound in Hfuel; lia|].
    rewrite while_loop_step by assumption. unfold bind.
    rewrite loop_body_run. cbn [fst snd].
    rewrite IH by (unfold passes_bound in *; lia).
    rewrite (chunk_ranges_step chunk_days Hcap end_dt cs Hle).
    cbn [plan_run]. rewrite chunk_ranges_more by assumption.
    destruct (plan_run _ _ _ _ _ _ _ _) as [[r tr] w'].
    reflexivity.
Qed.

Lemma get_paginated_data_run tk sd ed ts mult w s e :
  strptime sd = Some s -> strptime ed = Some e ->
  get_paginated_data list_aggs sleep_world tk sd ed ts mult w
  = let '(all_data, tr, w') :=
      plan_run list_aggs sleep_world tk ts mult
               (chunk_ranges (chunk_days_of ts) s e) [] w in
    (Returned (pd_concat all_data), tr, w').
Proof.
  intros Hs He. unfold get_paginated_data. rewrite Hs, He.
  fold (chunk_days_of ts). unfold bind.
  rewrite while_loop_run
    by (try apply Nat.le_refl; unfold chunk_days_of; destruct (ts =? _)%string; lia).
  destruct (plan_run _ _ _ _ _ _ _ _) as [[all_data tr] w'].
  destruct all_data; simpl; rewrite ?app_nil_r; reflexivity.
Qed.


(** *** What a pass and a plan request, receive and wait for *)

Lemma requests_app (t1 t2 : list (event num)) :
  requests (t1 ++ t2) = requests t1 ++ requests t2.
Proof. apply flat_map_app. Qed.

Lemma outcomes_app (t1 t2 : list (event num)) :
  outcomes (t1 ++ t2) = outcomes t1 ++ outcomes t2.
Proof. apply flat_map_app. Qed.

Lemma schedule_app (t1 t2 : list (event num)) :
  schedule (t1 ++ t2) = schedule t1 ++ schedule t2.
Proof. apply flat_map_app. Qed.

Lemma diagnostics_silent (o : outcome num) :
  requests (diagnostics o) = [] /\ outcomes (diagnostics o) = []
  /\ schedule (diagnostics o) = [].
Proof.
  destruct o as [[|a l]|e]; simpl; auto.
  destruct (contains "NOT_AUTHORIZED" e); simpl; auto.
  destruct (contains "RATE_LIMIT" e); simpl; auto.
Qed.

Lemma pass_log_requests tk ts mult c (o : outcome num) more :
  requests (pass_log tk ts mult c o more) = [chunk_request tk ts mult c].
Proof.
  unfold pass_log. rewrite !requests_app.
  destruct (diagnostics_silent o) as [Hd _]. rewrite Hd. destruct (empty (frame_of o)); destruct more; reflexivity.
Qed.

Lemma pass_log_outcomes tk ts mult c (o : outcome num) more :
  outcomes (pass_log tk ts mult c o more) = [o].
Proof.
  unfold pass_log. rewrite !outcomes_app.
  destruct (diagnostics_silent o) as [_ [Hd _]]. rewrite Hd. destruct (empty (frame_of o)); destruct more; reflexivity.
Qed.

Lemma pass_log_schedule tk ts mult c (o : outcome num) more :
  schedule (pass_log tk ts mult c o more)
  = Call :: (if more then [Wait 12] else []).
Proof.
  unfold pass_log. rewrite !schedule_app.
  destruct (diagnostics_silent o) as [_ [_ Hd]]. rewrite Hd. destruct (empty (frame_of o)); destruct more; reflexivity.
Qed.

Lemma plan_run_requests tk ts mult chunks all_data w :
  requests (snd (fst (plan_run list_aggs sleep_world tk ts mult chunks
                               all_data w)))
  = map (chunk_request tk ts mult) chunks.
Proof.
  revert all_data w. induction chunks as [|c rest IH]; intros all_data w.
  - reflexivity.
  - cbn [plan_run].
    match goal with |- context [plan_run _ _ _ _ _ rest ?a ?w'] =>
      specialize (IH a w');
      destruct (plan_run list_aggs sleep_world tk ts mult rest a w')
        as [[r tr] w2] end.
    cbn [fst snd] in *.
    rewrite requests_app, pass_log_requests, IH. reflexivity.
Qed.


Lemma plan_run_frames tk ts mult chunks all_data w :
  let '(r, tr, _) :=
    plan_run list_aggs sleep_world tk ts mult chunks all_data w in
  r = all_data ++ flat_map kept (map frame_of (outcomes tr)).
Proof.
  revert all_data w. induction chunks as [|c rest IH]; intros all_data w.
  - simpl. now rewrite app_nil_r.
  - cbn [plan_run].
    match goal with |- context [plan_run _ _ _ _ _ rest ?a ?w'] =>
      specialize (IH a w');
      destruct (plan_run list_aggs sleep_world tk ts mult rest a w')
        as [[r tr] w2] end.
    subst r. rewrite outcomes_app, pass_log_outcomes. simpl.
    rewrite <- app_assoc. reflexivity.
Qed.

Lemma plan_run_schedule tk ts mult chunks all_data w :
  schedule (snd (fst (plan_run list_aggs sleep_world tk ts mult chunks
                               all_data w)))
  = intersperse (Wait 12) (repeat Call (List.length chunks)).
Proof.
  revert all_data w. induction chunks as [|c rest IH]; intros all_data w.
  - reflexivity.
  - cbn [plan_run].
    match goal with |- context [plan_run _ _ _ _ _ rest ?a ?w'] =>
      specialize (IH a w');
      destruct (plan_run list_aggs sleep_world tk ts mult rest a w')
        as [[r tr] w2] end.
    cbn [fst snd] in *.
    rewrite schedule_app, pass_log_schedule, IH.
    destruct rest; reflexivity.
Qed.

Lemma request_dates_chunk_request tk ts mult chunks :
  map request_dates (map (chunk_request tk ts mult) chunks)
  = map chunk_text chunks.
Proof. rewrite map_map. reflexivity. Qed.

Lemma paginated_requests tk sd ed ts mult w s e :
  strptime sd = Some s -> strptime ed = Some e ->
  requests (run_trace (get_paginated_data list_aggs sleep_world
                                          tk sd ed ts mult w))
  = map (chunk_request tk ts mult) (chunk_ranges (chunk_days_of ts) s e).
Proof.
  intros Hs He. rewrite (get_paginated_data_run _ _ _ _ _ _ _ _ Hs He).
  rewrite <- (plan_run_requests tk ts mult _ [] w).
  destruct (plan_run _ _ _ _ _ _ _ _) as [[r tr] w']. reflexivity.
Qed.

Lemma chunk_days_of_nonneg ts : 0 <= chunk_days_of ts.
Proof. unfold chunk_days_of. destruct (ts =? "minute")%string; lia. Qed.



(** C2 (as amended): for the range 2024-01-01 to 2024-01-20 with timespan
    minute, the loop requests exactly three chunks, 2024-01-01 to
    2024-01-08, 2024-01-09 to 2024-01-16 and 2024-01-17 to 2024-01-20,
    whatever the provider answers. *)
Theorem example_range_chunks tk mult w :
  map request_dates
      (requests (run_trace (get_paginated_data list_aggs sleep_world tk
                              "2024-01-01" "2024-01-20" "minute" mult w)))
  = [("2024-01-01", "2024-01-08"); ("2024-01-09", "2024-01-16");
     ("2024-01-17", "2024-01-20")]%string.
Proof.
  rewrite (paginated_requests tk _ _ _ mult w 738886 738905)
    by reflexivity.
  rewrite request_dates_chunk_request. vm_compute. reflexivity.
Qed.

(** C3 (as amended): the end of every chunk is at most 7 days after its
    start for timespan minute and at most 30 days after it for hour, so a
    chunk covers at most 8, respectively 31, calendar days with both ends
    counted. *)
Theorem chunk_span_bound tk sd ed ts mult w s e :
  strptime sd = Some s -> strptime ed = Some e ->
  let tr := run_trace (get_paginated_data list_aggs sleep_world
                                          tk sd ed ts mult w) in
  let chunks := chunk_ranges (chunk_days_of ts) s e in
  map request_dates (requests tr) = map chunk_text chunks
  /\ (ts = "minute"%string ->
      Forall (fun c => snd c - fst c <= 7 /\ calendar_days c <= 8) chunks)
  /\ (ts = "hour"%string ->
      Forall (fun c => snd c - fst c <= 30 /\ calendar_days c <= 31) chunks).
Proof.
  intros Hs He tr chunks. subst tr chunks.
  rewrite (paginated_requests _ _ _ _ _ _ _ _ Hs He).
  rewrite request_dates_chunk_request.
  split; [reflexivity|].
  split; intros ->;
    (eapply Forall_impl;
     [|apply chunk_ranges_bounds; vm_compute; discriminate]);
    unfold calendar_days; intros c Hc;
    change (chunk_days_of _) with 7 in Hc || change (chunk_days_of _) with 30 in Hc;
    lia.
Qed.




(** *** The merged frame *)

Lemma concat_kept (frames : list (DataFrame num)) :
  pd_concat (flat_map kept frames) = List.concat frames.
Proof.
  unfold pd_concat. induction frames as [|df frames IH]; [reflexivity|].
  simpl. rewrite concat_app, IH.
  destruct df; unfold kept; simpl; rewrite ?app_nil_r; reflexivity.
Qed.

Lemma frame_of_records (o : outcome num) :
  frame_of o = map to_row (records_of o).
Proof. destruct o; reflexivity. Qed.

Lemma concat_frames (outs : list (outcome num)) :
  List.concat (map frame_of outs) = map to_row (flat_map records_of outs).
Proof.
  induction outs as [|o outs IH]; [reflexivity|].
  simpl. rewrite map_app, IH, frame_of_records. reflexivity.
Qed.

Lemma paginated_value tk sd ed ts mult w s e :
  strptime sd = Some s -> strptime ed = Some e ->
  let run := get_paginated_data list_aggs sleep_world tk sd ed ts mult w in
  run_value run
  = Returned (List.concat (map frame_of (outcomes (run_trace run)))).
Proof.
  intros Hs He. cbv zeta.
  rewrite (get_paginated_data_run _ _ _ _ _ _ _ _ Hs He).
  pose proof (plan_run_frames tk ts mult
                (chunk_ranges (chunk_days_of ts) s e) [] w) as Hf.
  destruct (plan_run _ _ _ _ _ _ _ _) as [[r tr] w'].
  unfold run_value, run_trace. cbn [fst snd]. subst r.
  rewrite app_nil_l, concat_kept. reflexivity.
Qed.


Lemma paginated_rows tk sd ed ts mult w s e :
  strptime sd = Some s -> strptime ed = Some e ->
  let run := get_paginated_data list_aggs sleep_world tk sd ed ts mult w in
  run_value run
  = Returned (map to_row (flat_map records_of (outcomes (run_trace run)))).
Proof.
  intros Hs He run. subst run.
  rewrite <- concat_frames. now apply (paginated_value _ _ _ _ _ _ s e).
Qed.




(** *** Order of the merged rows *)

Lemma StronglySorted_lt_app (l1 l2 : list Z) :
  StronglySorted Z.lt l1 -> StronglySorted Z.lt l2 ->
  (forall x y, In x l1 -> In y l2 -> x < y) ->
  StronglySorted Z.lt (l1 ++ l2).
Proof.
  intros H1 H2 H12. induction H1 as [|x l1 Hs IH Hx]; [exact H2|].
  simpl. constructor.
  - apply IH. intros a b Ha Hb. apply H12; [now right | assumption].
  - apply Forall_app. split; [assumption|].
    apply Forall_forall. intros y Hy. apply H12; [now left | assumption].
Qed.

Lemma StronglySorted_lt_NoDup (l : list Z) :
  StronglySorted Z.lt l -> NoDup l.
Proof.
  induction 1 as [|x l Hs IH Hx]; constructor; [|assumption].
  intros Hin. rewrite Forall_forall in Hx. specialize (Hx x Hin). lia.
Qed.

Lemma concat_strictly_increasing (frames : list (DataFrame num)) :
  Forall (fun df => StronglySorted Z.lt (map timestamp df)) frames ->
  StronglySorted precedes frames ->
  StronglySorted Z.lt (map timestamp (List.concat frames)).
Proof.
  intros Hsorted Hord. induction Hord as [|df frames Hord IH Hdf].
  - constructor.
  - inversion Hsorted as [|? ? Hhead Htail]; subst.
    simpl. rewrite map_app. apply StronglySorted_lt_app.
    + assumption.
    + now apply IH.
    + intros x y Hx Hy.
      apply in_map_iff in Hx. destruct Hx as [r1 [<- Hr1]].
      apply in_map_iff in Hy. destruct Hy as [r2 [<- Hr2]].
      apply in_concat in Hr2. destruct Hr2 as [df2 [Hdf2 Hr2]].
      rewrite Forall_forall in Hdf. exact (Hdf df2 Hdf2 r1 r2 Hr1 Hr2).
Qed.

(** C8: when the records of every chunk come sorted strictly increasing
    by timestamp and the time intervals of the chunks do not overlap (the
    rows of a chunk are earlier than the rows of every later chunk), the
    frame obtained by merging the chunks in chunk order is strictly
    increasing by timestamp and has no duplicate timestamp. *)
Theorem merged_series_strictly_increasing tk sd ed ts mult w s e :
  strptime sd = Some s -> strptime ed = Some e ->
  let run := get_paginated_data list_aggs sleep_world tk sd ed ts mult w in
  let frames := map frame_of (outcomes (run_trace run)) in
  Forall (fun df => StronglySorted Z.lt (map timestamp df)) frames ->
  StronglySorted precedes frames ->
  exists df,
    run_value run = Returned df
    /\ StronglySorted Z.lt (map timestamp df)
    /\ NoDup (map timestamp df).
Proof.
  intros Hs He run frames Hsorted Hord.
  exists (List.concat frames). split.
  - now apply (paginated_value _ _ _ _ _ _ s e).
  - assert (H : StronglySorted Z.lt (map timestamp (List.concat frames)))
      by now apply concat_strictly_increasing.
    split; [exact H | now apply StronglySorted_lt_NoDup].
Qed.

Lemma Forall2_In_right {A B} (P : A -> B -> Prop) l1 l2 y :
  Forall2 P l1 l2 -> In y l2 -> exists x, In x l1 /\ P x y.
Proof.
  induction 1 as [|x y' l1 l2 Hxy _ IH]; intros Hin; [contradiction|].
  destruct Hin as [->|Hin].
  - exists x. split; [now left | assumption].
  - destruct (IH Hin) as [x' [Hx' HP]]. exists x'. split; [now right|assumption].
Qed.

(** The time intervals of the chunks of a range never overlap: frames
    whose rows fall in the intervals of their chunks precede one another
    in chunk order. *)
Lemma chunk_windows_precede (day_start : Z -> Z) chunk_days s e
    (outs : list (outcome num)) :
  (forall a b, a <= b -> day_start a <= day_start b) ->
  0 <= chunk_days ->
  Forall2 (fun c o => in_window day_start c (frame_of o))
          (chunk_ranges chunk_days s e) outs ->
  StronglySorted precedes (map frame_of outs).
Proof.
  intros Hmono Hcap.
  pose proof (chunk_ranges_disjoint chunk_days Hcap e s) as Hdis.
  revert outs. induction Hdis as [|c chunks Hdis IH Hc]; intros outs Hw.
  - inversion Hw; subst. constructor.
  - inversion Hw as [|? o ? outs' Ho Hrest]; subst. simpl.
    constructor; [now apply IH|].
    apply Forall_forall. intros df Hdf.
    apply in_map_iff in Hdf. destruct Hdf as [o2 [<- Ho2]].
    destruct (Forall2_In_right _ _ _ o2 Hrest Ho2) as [c2 [Hc2 Hw2]].
    rewrite Forall_forall in Hc. specialize (Hc c2 Hc2).
    intros r1 r2 Hr1 Hr2.
    specialize (Ho r1 Hr1). specialize (Hw2 r2 Hr2).
    assert (day_start (snd c + 1) <= day_start (fst c2))
      by (apply Hmono; lia).
    lia.
Qed.

(** With a provider that answers each request with sorted records of the
    days asked for, the merged frame is strictly increasing: here the
    disjointness of the time intervals comes from the chunks themselves. *)
Lemma merged_series_of_chunk_windows (day_start : Z -> Z)
    tk sd ed ts mult w s e :
  (forall a b, a <= b -> day_start a <= day_start b) ->
  strptime sd = Some s -> strptime ed = Some e ->
  let run := get_paginated_data list_aggs sleep_world tk sd ed ts mult w in
  Forall (fun o => StronglySorted Z.lt (map timestamp (frame_of o)))
         (outcomes (run_trace run)) ->
  Forall2 (fun c o => in_window day_start c (frame_of o))
          (chunk_ranges (chunk_days_of ts) s e) (outcomes (run_trace run)) ->
  exists df,
    run_value run = Returned df
    /\ StronglySorted Z.lt (map timestamp df).
Proof.
  intros Hmono Hs He run Hsorted Hwin.
  exists (List.concat (map frame_of (outcomes (run_trace run)))). split.
  - now apply (paginated_value _ _ _ _ _ _ s e).
  - apply concat_strictly_increasing.
    + apply Forall_map. exact Hsorted.
    + apply (chunk_windows_precede day_start (chunk_days_of ts) s e);
        [assumption | apply chunk_days_of_nonneg | assumption].
Qed.



(** *** Dates given in the wrong order *)



End EngineFacts.

(** ** Every sequence of chunk outcomes *)

Lemma scripted_plan_outcomes {num} tk ts mult chunks all_data
    (script : list (outcome num)) :
  (List.length chunks <= List.length script)%nat ->
  outcomes (run_trace (plan_run scripted no_clock tk ts mult chunks
                                all_data script))
  = firstn (List.length chunks) script.
Proof.
  revert all_data script.
  induction chunks as [|c rest IH]; intros all_data script Hlen.
  - reflexivity.
  - destruct script as [|o script]; [simpl in Hlen; lia|].
    cbn [plan_run scripted fst snd no_clock].
    replace (if match rest with [] => false | _ :: _ => true end
             then script else script) with script by (destruct rest; reflexivity).
    specialize (IH (all_data ++ kept (frame_of o)) script).
    destruct (plan_run scripted no_clock tk ts mult rest _ script)
      as [[r tr] w2].
    unfold run_trace in *. cbn [fst snd] in *.
    rewrite outcomes_app, pass_log_outcomes. simpl.
    rewrite IH by (simpl in Hlen; lia). reflexivity.
Qed.

(** Whatever outcomes are scripted for the chunks of a range, failures
    included, the fetch meets exactly these outcomes and returns the rows
    of the successful ones. *)
Lemma scripted_outcomes_are_tolerated {num} tk sd ed ts mult s e
    (script : list (outcome num)) :
  strptime sd = Some s -> strptime ed = Some e ->
  List.length script = List.length (chunk_ranges (chunk_days_of ts) s e) ->
  let run := get_paginated_data scripted no_clock tk sd ed ts mult script in
  outcomes (run_trace run) = script
  /\ run_value run = Returned (map to_row (flat_map records_of script)).
Proof.
  intros Hs He Hlen run.
  assert (Hout : outcomes (run_trace run) = script).
  { subst run. rewrite (get_paginated_data_run _ _ _ _ _ _ _ _ _ _ _ _ Hs He).
    pose proof (scripted_plan_outcomes tk ts mult
                  (chunk_ranges (chunk_days_of ts) s e) [] script) as H.
    destruct (plan_run _ _ _ _ _ _ _ _) as [[r tr] w'].
    unfold run_trace in *. cbn [fst snd] in *.
    rewrite H by lia. rewrite <- Hlen. apply firstn_all. }
  split; [exact Hout|].
  rewrite <- Hout.
  apply (paginated_rows _ _ _ _ _ _ _ _ _ _ s e Hs He).
Qed.

(** ** The claims at concrete inputs *)

(** C2, as first stated: the chunks of 2024-01-01 to 2024-01-20 for
    timespan minute are not 01-01 to 01-07, 01-08 to 01-14 and 01-15 to
    01-20. *)
Lemma example_range_chunks_not_weekly :
  map request_dates
      (requests (run_trace
         (get_paginated_data scripted no_clock "AAPL" "2024-01-01"
            "2024-01-20" "minute" 1 ([] : list (outcome Z)))))
  <> [("2024-01-01", "2024-01-07"); ("2024-01-08", "2024-01-14");
      ("2024-01-15", "2024-01-20")]%string.
Proof. vm_compute. discriminate. Qed.

(** C3, as first stated: the first chunk of that fetch, 2024-01-01 to
    2024-01-08, covers 8 calendar days, more than 7. *)
Lemma minute_chunk_covers_eight_days :
  strptime "2024-01-01" = Some 738886
  /\ strptime "2024-01-20" = Some 738905
  /\ hd_error
       (map request_dates
          (requests (run_trace
             (get_paginated_data scripted no_clock "AAPL" "2024-01-01"
                "2024-01-20" "minute" 1 ([] : list (outcome Z))))))
     = Some ("2024-01-01", "2024-01-08")%string
  /\ strptime "2024-01-08" = Some 738893
  /\ In (738886, 738893) (chunk_ranges (chunk_days_of "minute") 738886 738905)
  /\ ~ Forall (fun c => calendar_days c <= 7)
              (chunk_ranges (chunk_days_of "minute") 738886 738905).
Proof.
  repeat (split; [vm_compute; auto; fail|]).
  intros H. inversion H as [|c l Hc Hl]; subst.
  vm_compute in Hc. apply Hc. reflexivity.
Qed.



Lemma chunk_span_bound_witness :
  Forall (fun c => snd c - fst c <= 7 /\ calendar_days c <= 8)
         (chunk_ranges (chunk_days_of "minute") 738886 738905).
Proof.
  apply (chunk_span_bound Z (list (outcome Z)) scripted no_clock "AAPL"
           "2024-01-01" "2024-01-20" "minute" 1 sorted_script
           738886 738905);
    reflexivity.
Defined.





Ltac rows_in_order :=
  repeat match goal with
         | |- Forall _ _ => constructor
         | |- StronglySorted _ _ => constructor
         | |- precedes _ _ => intros ? ? ? ?
         | H : In _ _ |- _ => simpl in H
         | H : _ \/ _ |- _ => destruct H
         | H : False |- _ => destruct H
         | H : _ = _ |- _ => subst
         | |- _ < _ => reflexivity
         end.

Lemma merged_series_strictly_increasing_witness :
  exists df,
    run_value (get_paginated_data scripted no_clock "AAPL" "2024-01-01"
                 "2024-01-20" "minute" 1 sorted_script)
    = Returned df
    /\ StronglySorted Z.lt (map timestamp df)
    /\ NoDup (map timestamp df).
Proof.
  apply (merged_series_strictly_increasing Z (list (outcome Z)) scripted
           no_clock "AAPL" "2024-01-01" "2024-01-20" "minute" 1
           sorted_script 738886 738905);
    [reflexivity | reflexivity | |];
    match goal with
    | |- context [map frame_of ?l] =>
        let v := eval vm_compute in (map frame_of l) in
        change (map frame_of l) with v
    end;
    rows_in_order.
Defined.



(** The records of [sorted_script] lie in the UTC days of their chunks,
    so the fetch that meets them returns a strictly increasing frame. *)
Lemma sorted_script_in_chunk_windows :
  exists df,
    run_value (get_paginated_data scripted no_clock "AAPL" "2024-01-01"
                 "2024-01-20" "minute" 1 sorted_script)
    = Returned df
    /\ StronglySorted Z.lt (map timestamp df).
Proof.
  apply (merged_series_of_chunk_windows Z (list (outcome Z)) scripted
           no_clock utc_day_start "AAPL" "2024-01-01" "2024-01-20"
           "minute" 1 sorted_script 738886 738905).
  - intros a b Hab. unfold utc_day_start. lia.
  - reflexivity.
  - reflexivity.
  - match goal with
    | |- Forall _ ?l =>
        let v := eval vm_compute in l in change l with v
    end.
    repeat constructor.
  - match goal with
    | |- Forall2 _ ?l1 ?l2 =>
        let v1 := eval vm_compute in l1 in
        let v2 := eval vm_compute in l2 in
        change l1 with v1; change l2 with v2
    end.
    repeat (apply Forall2_cons; [|]); try apply Forall2_nil;
      intros r Hr; simpl in Hr;
      repeat (destruct Hr as [<-|Hr]); try contradiction;
      vm_compute; split; congruence.
Qed.

(** [validate_date] accepts months and days without a leading zero, and on
    such text the order of the strings is not the order of the dates:
    2024-1-5 is before 2024-01-10, [main] exchanges them all the same, and
    the fetch then has no chunk. *)
Lemma main_fetch_unpadded_dates :
  strptime "2024-1-5" = Some 738890
  /\ strptime "2024-01-10" = Some 738895
  /\ main_fetch scripted no_clock "AAPL" "2024-1-5" "2024-01-10" "minute" 1
                sorted_script
     = (Returned [],
        [Print MsgSwapping;
         Print (MsgFetching 1 "minute" "AAPL" "2024-01-10" "2024-1-5")],
        sorted_script).
Proof. repeat split; vm_compute; reflexivity. Qed.

(** * Further properties of the fetch *)

Section ChunkCount.

Variable chunk_days : Z.
Hypothesis chunk_days_nonneg : 0 <= chunk_days.
Variable end_dt : Z.

(** A range of [n] days is cut into chunks of [chunk_days + 1] days, the
    last one possibly shorter. *)
Lemma chunk_ranges_length (cs : Z) :
  cs <= end_dt ->
  Z.of_nat (List.length (chunk_ranges chunk_days cs end_dt))
  = (end_dt - cs) / (chunk_days + 1) + 1.
Proof.
  pattern cs. apply (cursor_ind chunk_days chunk_days_nonneg end_dt);
    clear cs; [lia|].
  intros cs Hle IH _.
  rewrite (chunk_ranges_step chunk_days chunk_days_nonneg end_dt cs Hle).
  pose proof (chunk_end_bounds chunk_days chunk_days_nonneg end_dt cs Hle)
    as Hb.
  destruct (Z_lt_le_dec end_dt (chunk_end chunk_days end_dt cs + 1))
    as [Hlast|Hmore].
  - rewrite chunk_ranges_done by assumption.
    rewrite Z.div_small by lia. reflexivity.
  - specialize (IH Hmore).
    assert (Hce : chunk_end chunk_days end_dt cs = cs + chunk_days).
    { unfold chunk_end in *.
      destruct (end_dt <? cs + chunk_days); [lia | reflexivity]. }
    cbn [List.length]. rewrite Nat2Z.inj_succ, IH, Hce.
    replace (end_dt - cs)
      with (end_dt - (cs + chunk_days + 1) + 1 * (chunk_days + 1)) by lia.
    rewrite Z.div_add by lia. lia.
Qed.


End ChunkCount.

Section EngineMore.

Variable num : Type.
Variable W : Type.
Variable list_aggs : request -> W -> outcome num * W.
Variable sleep_world : Z -> W -> W.

Lemma seconds_slept_intersperse n :
  fold_right Z.add 0
             (map wait_seconds (intersperse (Wait 12) (repeat Call n)))
  = 12 * Z.of_nat (Nat.pred n).
Proof.
  induction n as [|n IH]; [reflexivity|].
  destruct n as [|n]; [reflexivity|].
  change (repeat Call (S (S n))) with (Call :: repeat Call (S n)).
  change (intersperse (Wait 12) (Call :: repeat Call (S n)))
    with (Call :: Wait 12 :: intersperse (Wait 12) (repeat Call (S n))).
  cbn [map fold_right wait_seconds]. rewrite IH.
  cbn [Nat.pred]. lia.
Qed.

Lemma paginated_schedule tk sd ed ts mult w s e :
  strptime sd = Some s -> strptime ed = Some e ->
  schedule (run_trace (get_paginated_data list_aggs sleep_world
                                          tk sd ed ts mult w))
  = intersperse (Wait 12)
      (repeat Call (List.length (chunk_ranges (chunk_days_of ts) s e))).
Proof.
  intros Hs He.
  rewrite (get_paginated_data_run _ _ _ _ _ _ _ _ _ _ _ _ Hs He).
  rewrite <- (plan_run_schedule _ _ list_aggs sleep_world tk ts mult _ [] w).
  destruct (plan_run _ _ _ _ _ _ _ _) as [[r tr] w']. reflexivity.
Qed.

(** X1: for start <= end the fetch makes (end - start) div (chunk_days + 1)
    + 1 requests, that is one for every 8 days of the range for minute and
    one for every 31 days otherwise, and sleeps 12 seconds for each request
    but the first.  The end of the range is taken [chunk_days] before
    9999-12-31, so that the dates of the loop stay dates of [datetime]. *)
Theorem paginated_fetch_cost tk sd ed ts mult w s e :
  strptime sd = Some s -> strptime ed = Some e -> s <= e ->
  e + chunk_days_of ts <= 3652059 ->
  let tr := run_trace (get_paginated_data list_aggs sleep_world
                                          tk sd ed ts mult w) in
  let k := (e - s) / (chunk_days_of ts + 1) in
  Z.of_nat (List.length (requests tr)) = k + 1
  /\ seconds_slept tr = 12 * k.
Proof.
  intros Hs He Hle _ tr k. subst tr k.
  pose proof (chunk_ranges_length _ (chunk_days_of_nonneg ts) e s Hle) as Hn.
  split.
  - rewrite (paginated_requests _ _ _ _ _ _ _ _ _ _ _ _ Hs He).
    rewrite length_map. exact Hn.
  - unfold seconds_slept.
    rewrite (paginated_schedule _ _ _ _ _ _ _ _ Hs He).
    rewrite seconds_slept_intersperse.
    assert (0 <= (e - s) / (chunk_days_of ts + 1))
      by (pose proof (chunk_days_of_nonneg ts); apply Z.div_pos; lia).
    set (k := (e - s) / (chunk_days_of ts + 1)) in *. lia.
Qed.










End EngineMore.

(** * The interactive front end *)

(** ** [get_date_input] *)

Section DateInput.

Variable num : Type.
Variable W : Type.

(** X6: [get_date_input] returns for the first answer that is acceptable
    (nothing typed when there is a default, which is then returned, or a
    date that [validate_date] accepts, which is returned as typed); every
    answer before it is read and answered by "Invalid date format", and
    the lines after it are left unread.  When no answer is acceptable the
    input ends and EOFError is raised. *)
Theorem get_date_input_first_acceptable text default
    (rejected : list string) (w : W) :
  Forall (fun x => acceptable default x = false) rejected ->
  let p := PromptDate text (truthy default) in
  let refusals :=
    flat_map (fun x => [@Input num p x; Say MsgInvalidDate]) rejected in
  (forall a rest,
      acceptable default a = true ->
      get_date_input text default (rejected ++ a :: rest, w)
      = (inl (answer_of default a), refusals ++ [Input p a], (rest, w)))
  /\ get_date_input text default (rejected, w)
     = (inr (Uncaught EOFError), refusals ++ [InputEOF p], ([], w)).
Proof.
  intros Hrej p refusals. subst p refusals. unfold get_date_input.
  cbn [fst snd].
  induction Hrej as [|x rejected Hx Hrej [IH1 IH2]].
  - split; [|reflexivity].
    intros a rest Ha. cbn [app flat_map get_date_input_from].
    unfold acceptable, answer_of in *.
    destruct (truthy default) as [d|]; [destruct a|]; try reflexivity;
      rewrite Ha; reflexivity.
  - assert (Hstep : forall lines,
      get_date_input_from text default (x :: lines)
      = (let '(r, tr, rest') :=
           @get_date_input_from num text default lines in
         (r, Input (PromptDate text (truthy default)) x
             :: Say MsgInvalidDate :: tr, rest'))).
    { intros lines. cbn [get_date_input_from].
      unfold acceptable in Hx.
      destruct (truthy default) as [d|]; [destruct x|];
        try discriminate; rewrite Hx; reflexivity. }
    split.
    + intros a rest Ha. specialize (IH1 a rest Ha).
      cbn [app flat_map]. rewrite Hstep.
      destruct (get_date_input_from text default (rejected ++ a :: rest))
        as [[r tr] rest'].
      injection IH1 as -> -> ->. reflexivity.
    + cbn [flat_map app]. rewrite Hstep.
      destruct (get_date_input_from text default rejected)
        as [[r tr] rest'].
      injection IH2 as -> -> ->. reflexivity.
Qed.

(** X7: whatever is typed, what [get_date_input] returns is the default
    or a date accepted by [validate_date], never text that was refused;
    the only way it stops otherwise is EOFError at the end of the input.
    Every line of the input is either read or left, and it prints
    "Invalid date format" once for every line it read but the one it
    returns for. *)
Theorem get_date_input_result text default (lines : list string) (w : W) :
  let run := @get_date_input num W text default (lines, w) in
  match run_value run with
  | inl s => truthy default = Some s \/ validate_date s = true
  | inr h => h = Uncaught EOFError /\ fst (run_world run) = []
  end
  /\ List.length lines
     = (List.length (fst (run_world run))
        + List.length (filter (fun ev => match ev with
                                         | Input _ _ => true
                                         | _ => false
                                         end) (run_trace run)))%nat
  /\ List.length (filter (fun ev => match ev with
                                    | Input _ _ => true
                                    | _ => false
                                    end) (run_trace run))
     = (List.length (filter (fun ev => match ev with
                                       | Say MsgInvalidDate => true
                                       | _ => false
                                       end) (run_trace run))
        + match run_value run with
          | inl _ => 1
          | inr _ => 0
          end)%nat.
Proof.
  unfold get_date_input, run_value, run_trace, run_world. cbn [fst snd].
  induction lines as [|x lines IH].
  - cbn. auto.
  - cbn [get_date_input_from].
    destruct (get_date_input_from text default lines) as [[r tr] rest].
    cbn [fst snd] in IH. destruct IH as (IHv & IHn & IHm).
    destruct (truthy default) as [d|] eqn:Hd; [destruct x as [|c x]|].
    + cbn. split; [now left|]. split; lia.
    + destruct (validate_date (String c x)) eqn:Hv.
      * cbn. split; [now right|]. split; lia.
      * cbn [fst snd filter List.length]. split; [exact IHv|].
        split; [lia|]. destruct r; lia.
    + destruct (validate_date x) eqn:Hv.
      * cbn. split; [now right|]. split; lia.
      * cbn [fst snd filter List.length]. split; [exact IHv|].
        split; [lia|]. destruct r; lia.
Qed.

End DateInput.

(** ** [validate_date] *)

Lemma parse_month_two_digits m rest :
  0 <= m < 100 ->
  parse_month (pad2 m (String "-" rest))
  = if (1 <=? m) && (m <=? 12) then Some (m, rest) else None.
Proof.
  intros Hm. unfold parse_month, pad2. rewrite !digit_val_char.
  assert (Hx : (m / 10) mod 10 = m / 10) by (Z.div_mod_to_equations; lia).
  assert (Hy : 10 * (m / 10) + m mod 10 = m) by (Z.div_mod_to_equations; lia).
  rewrite Hx.
  destruct (Z.eqb_spec (m / 10) 1) as [E1|E1];
    destruct (Z.leb_spec (m mod 10) 2) as [E2|E2];
    destruct (Z.eqb_spec (m / 10) 0) as [E3|E3];
    destruct (Z.leb_spec 1 (m mod 10)) as [E4|E4];
    destruct (Z.leb_spec 1 m) as [E5|E5];
    destruct (Z.leb_spec m 12) as [E6|E6];
    cbn [andb orb]; try (rewrite Hy; reflexivity); try reflexivity;
    exfalso; Z.div_mod_to_equations; lia.
Qed.

Lemma parse_day_two_digits d :
  0 <= d < 100 ->
  parse_day (pad2 d EmptyString)
  = if (1 <=? d) && (d <=? 31) then Some d else None.
Proof.
  intros Hd. unfold parse_day, pad2. rewrite !digit_val_char.
  assert (Hx : (d / 10) mod 10 = d / 10) by (Z.div_mod_to_equations; lia).
  assert (Hy : 10 * (d / 10) + d mod 10 = d) by (Z.div_mod_to_equations; lia).
  rewrite Hx.
  destruct (Z.eqb_spec (d / 10) 3) as [E1|E1];
    destruct (Z.leb_spec (d mod 10) 1) as [E2|E2];
    destruct (Z.eqb_spec (d / 10) 1) as [E3|E3];
    destruct (Z.eqb_spec (d / 10) 2) as [E4|E4];
    destruct (Z.eqb_spec (d / 10) 0) as [E5|E5];
    destruct (Z.leb_spec 1 (d mod 10)) as [E6|E6];
    destruct (Z.leb_spec 1 d) as [E7|E7];
    destruct (Z.leb_spec d 31) as [E8|E8];
    cbn [andb orb]; try (rewrite Hy; reflexivity); try reflexivity;
    exfalso; Z.div_mod_to_equations; lia.
Qed.

(** X8: on zero-padded text YYYY-MM-DD, [validate_date] holds exactly for
    the dates of the calendar: year from 1, month from 1 to 12, day from 1
    to the length of the month, 29 February in leap years only. *)
Theorem validate_date_isoformat y m d :
  0 <= y <= 9999 -> 0 <= m <= 99 -> 0 <= d <= 99 ->
  validate_date (isoformat y m d) = valid_date y m d.
Proof.
  intros Hy Hm Hd. unfold validate_date.
  destruct (valid_date y m d) eqn:Hv.
  - now rewrite strptime_isoformat.
  - unfold strptime, isoformat, pad4. unfold pad2 at 1. cbv beta iota.
    rewrite !digit_val_char. cbv beta iota. rewrite Ascii.eqb_refl.
    rewrite parse_month_two_digits by lia.
    destruct ((1 <=? m) && (m <=? 12)) eqn:Em; [|reflexivity].
    rewrite parse_day_two_digits by lia.
    destruct ((1 <=? d) && (d <=? 31)) eqn:Ed; [|reflexivity].
    replace (1000 * ((y / 1000) mod 10) + 100 * ((y / 100) mod 10)
             + 10 * ((y / 10) mod 10) + y mod 10) with y
      by (Z.div_mod_to_equations; lia).
    rewrite Hv. reflexivity.
Qed.

Lemma parse_month_plain m rest :
  1 <= m <= 12 ->
  parse_month (plain2 m (String "-" rest)) = Some (m, rest).
Proof.
  intros Hm. unfold plain2. destruct (Z.ltb_spec m 10) as [Hlt|Hge].
  - unfold parse_month. rewrite digit_val_char.
    change (digit_val "-") with (@None Z). cbv beta iota.
    rewrite Z.mod_small by lia. rewrite Ascii.eqb_refl.
    destruct (Z.leb_spec 1 m); [reflexivity | lia].
  - now apply parse_month_pad2.
Qed.

Lemma parse_day_plain d :
  1 <= d <= 31 -> parse_day (plain2 d EmptyString) = Some d.
Proof.
  intros Hd. unfold plain2. destruct (Z.ltb_spec d 10) as [Hlt|Hge].
  - unfold parse_day. rewrite digit_val_char. rewrite Z.mod_small by lia.
    destruct (Z.leb_spec 1 d); [reflexivity | lia].
  - now apply parse_day_pad2.
Qed.

Lemma strptime_plain_text y m d :
  valid_date y m d = true ->
  strptime (plain_text y m d) = Some (ymd2ord y m d).
Proof.
  intros Hv. pose proof Hv as Hv'. apply valid_date_spec in Hv'.
  destruct Hv' as (Hy & Hm & Hd).
  pose proof (days_in_month_max y m Hm) as Hmax.
  unfold strptime, plain_text, pad4. unfold pad2 at 1. cbv beta iota.
  rewrite !digit_val_char. cbv beta iota.
  rewrite Ascii.eqb_refl.
  rewrite parse_month_plain by assumption.
  rewrite parse_day_plain by lia.
  replace (1000 * ((y / 1000) mod 10) + 100 * ((y / 100) mod 10)
           + 10 * ((y / 10) mod 10) + y mod 10) with y
    by (Z.div_mod_to_equations; lia).
  rewrite Hv. reflexivity.
Qed.

(** X9: [validate_date] does not insist on leading zeros: the text of a
    valid date with a one-digit month or day written as one digit is
    accepted and read as the same date as the zero-padded text, from which
    it differs. *)
Theorem validate_date_accepts_plain_text y m d :
  valid_date y m d = true ->
  validate_date (plain_text y m d) = true
  /\ strptime (plain_text y m d) = strptime (isoformat y m d)
  /\ (m < 10 \/ d < 10 -> plain_text y m d <> isoformat y m d).
Proof.
  intros Hv. pose proof (strptime_plain_text y m d Hv) as Hp.
  split; [unfold validate_date; now rewrite Hp|].
  split; [now rewrite Hp, strptime_isoformat|].
  intros Hshort Heq.
  apply (f_equal String.length) in Heq.
  unfold plain_text, isoformat, pad4, pad2, plain2 in Heq.
  apply valid_date_spec in Hv.
  destruct (Z.ltb_spec m 10); destruct (Z.ltb_spec d 10);
    cbn [String.length] in Heq; try discriminate; lia.
Qed.

(** ** Dates typed without leading zeros *)

Lemma str_gt_plain_text y m1 d1 m2 d2 :
  0 <= m1 < 10 -> 0 <= m2 < 100 -> m2 / 10 < m1 ->
  str_gt (plain_text y m1 d1) (isoformat y m2 d2) = true.
Proof.
  intros H1 H2 Hlt. unfold str_gt, String.ltb, plain_text, isoformat.
  rewrite compare_pad4, Z.compare_refl. cbn [String.compare].
  change (Ascii.compare "-" "-") with Eq. cbv iota.
  unfold plain2. destruct (Z.ltb_spec m1 10); [|lia].
  unfold pad2. cbn [String.compare]. rewrite digit_compare.
  assert (Hc : ((m2 / 10) mod 10 ?= m1 mod 10) = Lt).
  { apply Z.compare_lt_iff. Z.div_mod_to_equations; lia. }
  rewrite Hc. reflexivity.
Qed.

Section SwappedInOrder.

Variable num : Type.
Variable W : Type.
Variable list_aggs : request -> W -> outcome num * W.
Variable sleep_world : Z -> W -> W.

(** X10: the swap of [main] compares text.  When the start date is typed
    with a one-digit month (2024-1-5) and the end date zero padded, with a
    month whose first digit is smaller (2024-01-10), [main] takes the
    start for the later one although it is the earlier: it exchanges two
    dates that were in order, and the paginated fetch that follows makes
    no request and returns the empty frame. *)
Theorem main_swaps_dates_in_order tk y m1 d1 m2 d2 ts mult w :
  valid_date y m1 d1 = true -> valid_date y m2 d2 = true ->
  m1 < 10 -> m2 / 10 < m1 ->
  ymd2ord y m1 d1 < ymd2ord y m2 d2 ->
  ts = "minute"%string \/ ts = "hour"%string ->
  let start_date := plain_text y m1 d1 in
  let end_date := isoformat y m2 d2 in
  validate_date start_date = true
  /\ validate_date end_date = true
  /\ main_fetch list_aggs sleep_world tk start_date end_date ts mult w
     = (Returned [],
        [Print MsgSwapping;
         Print (MsgFetching mult ts tk end_date start_date)], w).
Proof.
  intros H1 H2 Hm1 Hm2 Hlt Hts start_date end_date.
  pose proof (strptime_plain_text _ _ _ H1) as Hs.
  pose proof (strptime_isoformat _ _ _ H2) as He.
  split; [unfold validate_date; subst start_date; now rewrite Hs|].
  split; [unfold validate_date; subst end_date; now rewrite He|].
  pose proof H1 as V1. pose proof H2 as V2.
  apply valid_date_spec in V1, V2.
  unfold main_fetch, bind, print, ret. subst start_date end_date.
  rewrite str_gt_plain_text by lia.
  assert (Hb : ((ts =? "minute")%string || (ts =? "hour")%string) = true)
    by (destruct Hts as [->| ->]; reflexivity).
  rewrite Hb.
  rewrite (get_paginated_data_run _ _ _ _ _ _ _ _ _ _ _ _ He Hs).
  rewrite chunk_ranges_done by assumption. reflexivity.
Qed.

End SwappedInOrder.

(** ** [main] *)

Section MainFacts.

Variable num : Type.
Variable W : Type.
Variable list_aggs : request -> W -> outcome num * W.
Variable sleep_world : Z -> W -> W.

Local Abbreviation state := (list string * W)%type.

Lemma keeps_bind {A B} (m : MainM num W A) (f : A -> MainM num W B)
    (st : state) (E : main_event num -> Prop)
    (Q : A -> Prop) (R : B -> Prop) :
  keeps (m st) E Q ->
  (forall a st', Q a -> keeps (f a st') E R) ->
  keeps (mbind m f st) E R.
Proof.
  unfold keeps, mbind, run_trace, run_value.
  destruct (m st) as [[r t1] st1]. cbn [fst snd].
  intros [Ht Hv] Hf. destruct r as [a|h].
  - specialize (Hf a st1 Hv). destruct (f a st1) as [[b t2] st2].
    cbn [fst snd] in *. destruct Hf as [Ht2 Hb].
    split; [apply Forall_app; split; assumption | assumption].
  - cbn [fst snd]. split; assumption.
Qed.

Lemma keeps_weaken {A} (run : (A + halt) * list (main_event num) * state)
    (E : main_event num -> Prop) (Q Q' : A -> Prop) :
  keeps run E Q -> (forall a, Q a -> Q' a) -> keeps run E Q'.
Proof.
  unfold keeps. intros [Ht Hv] HQ. split; [assumption|].
  destruct (run_value run); auto.
Qed.

Lemma keeps_ret {A} (a : A) (st : state) (E : main_event num -> Prop)
    (Q : A -> Prop) :
  Q a -> keeps (mret a st) E Q.
Proof. intros HQ. split; [constructor | exact HQ]. Qed.

Lemma keeps_emit ev (st : state) (E : main_event num -> Prop) Q :
  E ev -> Q tt -> keeps (emit ev st) E Q.
Proof. intros HE HQ. split; [repeat constructor; exact HE | exact HQ]. Qed.

Lemma keeps_input p (st : state) (E : main_event num -> Prop) Q :
  (forall a, E (Input p a)) -> E (InputEOF p) -> (forall a, Q a) ->
  keeps (input p st) E Q.
Proof.
  intros HE HEOF HQ. unfold keeps, input, run_trace, run_value.
  destruct (fst st) as [|a rest]; cbn [fst snd];
    (split; [repeat constructor; auto | auto]).
Qed.

Lemma keeps_get_date_input text default (st : state)
    (E : main_event num -> Prop) :
  (forall p a, E (Input p a)) -> (forall p, E (InputEOF p)) ->
  (forall m, E (Say m)) ->
  (forall s, truthy default = Some s -> validate_date s = true) ->
  keeps (get_date_input text default st) E
        (fun s => validate_date s = true).
Proof.
  intros HI HEOF HS Hdef.
  unfold keeps, get_date_input, run_trace, run_value.
  destruct st as [lines w]. cbn [fst snd].
  induction lines as [|x lines IH].
  - cbn. split; [repeat constructor; auto | reflexivity].
  - cbn [get_date_input_from].
    destruct (get_date_input_from text default lines) as [[r tr] rest].
    cbn [fst snd] in IH. destruct IH as [IHt IHv].
    destruct (truthy default) as [d|] eqn:Hd; [destruct x as [|c x]|].
    + cbn. split; [repeat constructor; auto | now apply Hdef].
    + destruct (validate_date (String c x)) eqn:Hv; cbn [fst snd].
      * split; [repeat constructor; auto | exact Hv].
      * split; [repeat constructor; auto | exact IHv].
    + destruct (validate_date x) eqn:Hv; cbn [fst snd].
      * split; [repeat constructor; auto | exact Hv].
      * split; [repeat constructor; auto | exact IHv].
Qed.

Lemma validate_date_strftime n :
  1 <= n <= 3652059 -> validate_date (strftime n) = true.
Proof.
  intros Hn. unfold validate_date. now rewrite strptime_strftime.
Qed.

Lemma truthy_some default s : truthy (Some default) = Some s -> s = default.
Proof. destruct default; [discriminate | now intros [= <-]]. Qed.

Lemma keeps_main_dates now1 now2 (st : state) :
  1 <= now1 <= 3652059 -> 366 <= now2 <= 3652059 ->
  keeps (@main_dates num W now1 now2 st) main_invariant
        (fun '(_, start_date, end_date) =>
           validate_date start_date = true
           /\ validate_date end_date = true).
Proof.
  intros H1 H2. unfold main_dates.
  eapply keeps_bind; [apply keeps_input with (Q := fun _ => True);
                      cbn; auto|].
  intros answer st1 _.
  eapply keeps_bind; [apply keeps_emit with (Q := fun _ => True);
                      cbn; auto|].
  intros _ st2 _.
  eapply keeps_bind; [apply keeps_emit with (Q := fun _ => True);
                      cbn; auto|].
  intros _ st3 _.
  eapply keeps_bind.
  { apply keeps_get_date_input; cbn; auto.
    intros s Hs. apply truthy_some in Hs. subst s.
    apply validate_date_strftime. lia. }
  intros start_date st4 Hstart.
  eapply keeps_bind.
  { apply keeps_get_date_input; cbn; auto.
    intros s Hs. apply truthy_some in Hs. subst s.
    now apply validate_date_strftime. }
  intros end_date st5 Hend. cbv beta in Hstart, Hend.
  destruct (str_gt start_date end_date).
  - eapply keeps_bind with (Q := fun _ => True).
    + unfold keeps, lift, print, run_trace, run_value. cbn.
      split; [repeat constructor | exact I].
    + intros _ st6 _. apply keeps_ret. split; assumption.
  - apply keeps_ret. split; assumption.
Qed.

Lemma dict_get_timespan choice :
  In (dict_get timespan_map choice "day")
     ["minute"; "hour"; "day"; "week"; "month"]%string.
Proof.
  unfold timespan_map. cbn [dict_get].
  repeat match goal with
         | |- context [if ?b then _ else _] => destruct b
         end; cbn; auto 10.
Qed.

Lemma chosen_multiplier_option mult_choice :
  In (int_ (chosen_multiplier mult_choice)) [1; 5; 15; 30].
Proof.
  unfold chosen_multiplier.
  destruct (isdigit mult_choice); cbn [andb]; [|cbn; auto].
  destruct (Z.leb_spec 1 (int_ mult_choice)); cbn [andb]; [|cbn; auto].
  destruct (Z.leb_spec (int_ mult_choice) 4); [|cbn; auto].
  assert (Hi : int_ mult_choice = 1 \/ int_ mult_choice = 2
               \/ int_ mult_choice = 3 \/ int_ mult_choice = 4) by lia.
  destruct Hi as [-> | [-> | [-> | ->]]]; cbn; auto.
Qed.

Lemma keeps_main_options (st : state) :
  keeps (@main_options num W st) main_invariant
        (fun '(timespan, multiplier) =>
           In timespan ["minute"; "hour"; "day"; "week"; "month"]%string
           /\ In (int_ multiplier) [1; 5; 15; 30]
           /\ (int_ multiplier <> 1 -> timespan = "minute"%string)).
Proof.
  unfold main_options.
  repeat (eapply keeps_bind;
          [apply keeps_emit with (Q := fun _ => True); cbn; auto
          |intros _ ? _]).
  eapply keeps_bind; [apply keeps_input with (Q := fun _ => True);
                      cbn; auto|].
  intros timespan_choice st1 _.
  pose proof (dict_get_timespan timespan_choice) as Hts.
  set (timespan := dict_get timespan_map timespan_choice "day") in *.
  destruct ((timespan =? "minute")%string || (timespan =? "hour")%string).
  - repeat (eapply keeps_bind;
            [apply keeps_emit with (Q := fun _ => True); cbn; auto
            |intros _ ? _]).
    destruct (String.eqb_spec timespan "minute") as [Hmin|Hmin].
    + repeat (eapply keeps_bind;
              [apply keeps_emit with (Q := fun _ => True); cbn; auto
              |intros _ ? _]).
      eapply keeps_bind; [apply keeps_input with (Q := fun _ => True);
                          cbn; auto|].
      intros mult_choice st2 _. apply keeps_ret.
      split; [assumption|]. split; [apply chosen_multiplier_option|].
      intros _. exact Hmin.
    + apply keeps_ret. split; [assumption|].
      split; [cbn; auto | intros H; now contradiction H].
  - apply keeps_ret. split; [assumption|].
    split; [cbn; auto | intros H; now contradiction H].
Qed.

Lemma requests_Forall_events (P : request -> Prop)
    (tr : list (event num)) :
  Forall P (requests tr) ->
  Forall (fun ev => match ev with
                    | ListAggs r _ => P r
                    | _ => True
                    end) tr.
Proof.
  induction tr as [|ev tr IH]; intros H; [constructor|].
  destruct ev as [m|r o|n]; cbn in H.
  - constructor; [exact I | now apply IH].
  - inversion H; subst. constructor; [assumption | now apply IH].
  - constructor; [exact I | now apply IH].
Qed.



Lemma validate_date_parses s :
  validate_date s = true -> exists n, strptime s = Some n.
Proof.
  unfold validate_date. destruct (strptime s) as [n|]; [eauto|discriminate].
Qed.

Lemma paginated_requests_valid tk sd ed ts mult w s e :
  strptime sd = Some s -> strptime ed = Some e ->
  Forall (fun r =>
            multiplier r = mult /\ timespan r = ts /\ limit r = 50000
            /\ validate_date (from_ r) = true
            /\ validate_date (to r) = true)
         (requests (run_trace (get_paginated_data list_aggs sleep_world
                                                  tk sd ed ts mult w))).
Proof.
  intros Hs He.
  rewrite (paginated_requests _ _ _ _ _ _ _ _ _ _ _ _ Hs He).
  apply Forall_map.
  pose proof (strptime_range _ _ Hs). pose proof (strptime_range _ _ He).
  eapply Forall_impl;
    [|apply (chunk_ranges_bounds _ (chunk_days_of_nonneg ts) e s)].
  intros c Hc. cbv beta in Hc.
  cbn [chunk_request multiplier timespan limit from_ to].
  repeat (split; [reflexivity|]).
  split; apply validate_date_strftime; lia.
Qed.

Lemma keeps_main_data tk sd ed ts m (st : state) :
  validate_date sd = true -> validate_date ed = true ->
  In ts ["minute"; "hour"; "day"; "week"; "month"]%string ->
  In (int_ m) [1; 5; 15; 30] ->
  (int_ m <> 1 -> ts = "minute"%string) ->
  keeps (main_data list_aggs sleep_world tk sd ed ts m st) main_invariant
        (fun _ => True).
Proof.
  intros Hsd Hed Hts Hm Hmin. unfold main_data.
  eapply keeps_bind with (Q := fun _ => True).
  { unfold keeps, lift, print, run_trace, run_value. cbn.
    split; [repeat constructor | exact I]. }
  intros _ st1 _.
  assert (Hgood : forall r,
             multiplier r = int_ m -> timespan r = ts -> limit r = 50000 ->
             good_request r).
  { intros r Hr1 Hr2 Hr3. unfold good_request.
    rewrite Hr1, Hr2, Hr3. auto. }
  destruct ((ts =? "minute")%string || (ts =? "hour")%string).
  - destruct (validate_date_parses _ Hsd) as [s Hs].
    destruct (validate_date_parses _ Hed) as [e He].
    pose proof (paginated_requests_valid tk sd ed ts (int_ m) (snd st1)
                  s e Hs He) as Hreq.
    pose proof (paginated_value _ _ list_aggs sleep_world tk sd ed ts
                  (int_ m) (snd st1) s e Hs He) as Hval.
    cbv zeta in Hval.
    unfold keeps, lift_result.
    destruct (get_paginated_data list_aggs sleep_world tk sd ed ts
                                 (int_ m) (snd st1)) as [[r tr] w'].
    unfold run_trace, run_value in *. cbn [fst snd] in *. subst r.
    split; [|exact I].
    apply Forall_map. apply requests_Forall_events in Hreq.
    eapply Forall_impl; [|exact Hreq].
    intros ev Hev. destruct ev as [msg|r o|n]; cbn; auto.
    destruct Hev as (H1 & H2 & H3 & H4 & H5). auto.
  - unfold keeps, lift. rewrite get_historical_data_run.
    unfold run_trace, run_value. cbn [fst snd]. split; [|exact I].
    apply Forall_map. apply requests_Forall_events with
      (P := fun r => good_request r /\ validate_date (from_ r) = true
                     /\ validate_date (to r) = true).
    rewrite requests_app.
    destruct (diagnostics_silent _ (fst (list_aggs
      {| ticker := tk; multiplier := int_ m; timespan := ts;
         from_ := sd; to := ed; limit := 50000 |} (snd st1)))) as [Hd _].
    rewrite Hd. cbn. constructor; [|constructor].
    split; [apply Hgood; reflexivity | split; assumption].
Qed.

Lemma keeps_main_report tk sd ed ts (df : DataFrame num) (st : state) :
  keeps (main_report tk sd ed ts df st) main_invariant (fun _ => True).
Proof.
  unfold main_report. destruct df as [|row df].
  - cbn [empty]. apply keeps_emit; cbn; auto.
  - cbn [empty].
    assert (Hne : row :: df <> []) by discriminate.
    repeat (eapply keeps_bind;
            [apply keeps_emit with (Q := fun _ => True); cbn; auto
            |intros _ ? _]).
    eapply keeps_bind; [apply keeps_input with (Q := fun _ => True);
                        cbn; auto|].
    intros save_option st1 _.
    eapply keeps_bind with (Q := fun _ => True).
    { destruct (lower save_option =? "y")%string.
      - eapply keeps_bind;
          [apply keeps_emit with (Q := fun _ => True); cbn; auto
          |intros _ ? _].
        apply keeps_emit; cbn; auto.
      - apply keeps_ret. exact I. }
    intros _ st2 _.
    eapply keeps_bind; [apply keeps_input with (Q := fun _ => True);
                        cbn; auto|].
    intros save_csv st3 _.
    destruct (lower save_csv =? "y")%string.
    + eapply keeps_bind;
        [apply keeps_emit with (Q := fun _ => True); cbn; auto
        |intros _ ? _].
      apply keeps_emit; cbn; auto.
    + apply keeps_ret. exact I.
Qed.

Lemma main_keeps now1 now2 (st : state) :
  1 <= now1 <= 3652059 -> 366 <= now2 <= 3652059 ->
  keeps (main list_aggs sleep_world now1 now2 st) main_invariant
        (fun _ => True).
Proof.
  intros H1 H2. unfold main.
  eapply keeps_bind; [now apply keeps_main_dates|].
  intros [[ticker start_date] end_date] st1 [Hs He].
  eapply keeps_bind; [apply keeps_main_options|].
  intros [timespan multiplier] st2 (Hts & Hm & Hmin).
  eapply keeps_bind; [now apply keeps_main_data|].
  intros df st3 _. apply keeps_main_report.
Qed.




(** X13: [main] never hands an empty frame to [plot_candlestick] or to
    [to_csv]: when nothing was retrieved it returns before the chart. *)
Theorem main_never_plots_an_empty_frame now1 now2 lines w :
  1 <= now1 <= 3652059 -> 366 <= now2 <= 3652059 ->
  let tr := run_trace (main list_aggs sleep_world now1 now2 (lines, w)) in
  (forall df tk, In (PlotCandlestick df tk) tr -> df <> [])
  /\ (forall df f, In (ToCsv df f) tr -> df <> []).
Proof.
  intros H1 H2 tr.
  pose proof (proj1 (main_keeps now1 now2 (lines, w) H1 H2)) as Hinv.
  fold tr in Hinv. rewrite Forall_forall in Hinv.
  split; intros df x Hin; exact (Hinv _ Hin).
Qed.

End MainFacts.

(** ** The chart and the files *)

Lemma lower_is_y (a : string) :
  (lower a =? "y")%string = true <-> a = "y"%string \/ a = "Y"%string.
Proof.
  split.
  - intros H. apply String.eqb_eq in H.
    destruct a as [|c [|c' a]]; try discriminate H.
    injection H as H.
    destruct c as [[] [] [] [] [] [] [] []]; vm_compute in H;
      try discriminate H; auto.
  - intros [-> | ->]; reflexivity.
Qed.

Section Report.

Variable num : Type.
Variable W : Type.

Ltac report_cases :=
  repeat match goal with
         | H : In _ (_ :: _) |- _ => destruct H as [H|H]
         | H : In _ [] |- _ => destruct H
         | H : _ = _ |- _ => discriminate H
         | H : Input _ _ = Input _ _ |- _ => injection H as H; subst
         | H : WriteHtml _ = WriteHtml _ |- _ => injection H as H; subst
         | H : ToCsv _ _ = ToCsv _ _ |- _ => injection H as H; subst
         | H : exists _, _ |- _ => destruct H as [? H]
         | H : _ /\ _ |- _ => destruct H as [? H]
         end.

(** X14: the end of [main].  With an empty frame it prints "No data
    retrieved" and returns: no chart, no prompt, no file.  Otherwise the
    chart is written to ticker_timespan_start_to_end.html exactly when the
    answer to "Save chart as HTML?" is y or Y, and the frame fetched is
    written to ticker_timespan_start_to_end.csv exactly when the answer
    to "Save data as CSV?" is y or Y. *)
Theorem report_writes_files_on_yes tk sd ed ts (df : DataFrame num)
    (st : list string * W) :
  let tr := run_trace (main_report tk sd ed ts df st) in
  (df = [] ->
   main_report tk sd ed ts df st = (inl tt, [Say MsgNoDataRetrieved], st))
  /\ (forall f,
         In (WriteHtml f) tr
         <-> f = chart_filename tk ts sd ed /\ df <> []
             /\ exists a, In (Input PromptSaveChart a) tr
                          /\ (a = "y" \/ a = "Y")%string)
  /\ (forall d f,
         In (ToCsv d f) tr
         <-> d = df /\ f = csv_filename tk ts sd ed /\ df <> []
             /\ exists a, In (Input PromptSaveCsv a) tr
                          /\ (a = "y" \/ a = "Y")%string).
Proof.
  intros tr. subst tr. split; [intros ->; reflexivity|].
  destruct st as [lines w].
  unfold main_report, mbind, say, emit, input, mret, run_trace.
  destruct df as [|row df].
  - cbn [empty fst snd app].
    split; [intros f | intros d f]; split; intros H;
      report_cases; congruence.
  - destruct lines as [|a [|b rest]]; cbn [empty fst snd app].
    + split; [intros f | intros d f]; split; intros H; report_cases.
    + destruct (lower a =? "y")%string eqn:Ea; cbn [fst snd app];
        (split; [intros f | intros d f]; split; intros H; report_cases;
         try (apply lower_is_y in Ea);
         try (repeat split; try discriminate; eauto 10 using in_eq, in_cons;
              fail);
         try (cbn; auto 10; fail);
         try (match goal with
              | Hy : (_ = _ \/ _ = _)%type |- _ =>
                  apply lower_is_y in Hy; congruence
              end)).
    + destruct (lower a =? "y")%string eqn:Ea; cbn [fst snd app];
        destruct (lower b =? "y")%string eqn:Eb; cbn [fst snd app];
        (split; [intros f | intros d f]; split; intros H; report_cases;
         try (apply lower_is_y in Ea); try (apply lower_is_y in Eb);
         try (repeat split; try discriminate; eauto 10 using in_eq, in_cons;
              fail);
         try (cbn; auto 10; fail);
         try (match goal with
              | Hy : (_ = _ \/ _ = _)%type |- _ =>
                  apply lower_is_y in Hy; congruence
              end)).
Qed.

End Report.

(** ** Timespans that are not paginated *)

Section WholeRange.

Variable num : Type.
Variable W : Type.
Variable list_aggs : request -> W -> outcome num * W.
Variable sleep_world : Z -> W -> W.


End WholeRange.

(** ** The further properties at concrete inputs *)

Lemma paginated_fetch_cost_witness :
  let tr := run_trace (get_paginated_data scripted no_clock "AAPL"
                         "2024-01-01" "2024-01-20" "minute" 1
                         sorted_script) in
  Z.of_nat (List.length (requests tr)) = 3 /\ seconds_slept tr = 24.
Proof.
  apply (paginated_fetch_cost Z (list (outcome Z)) scripted no_clock
           "AAPL" "2024-01-01" "2024-01-20" "minute" 1 sorted_script
           738886 738905);
    [reflexivity | reflexivity | lia | vm_compute; discriminate].
Defined.





Lemma get_date_input_first_acceptable_witness :
  @get_date_input Z unit "Enter end date" (Some "2024-01-25"%string)
    (["20 January"; "2024-02-30"; "2024-01-20"; "1"]%string, tt)
  = (inl "2024-01-20"%string,
     [Input (PromptDate "Enter end date" (Some "2024-01-25")) "20 January";
      Say MsgInvalidDate;
      Input (PromptDate "Enter end date" (Some "2024-01-25")) "2024-02-30";
      Say MsgInvalidDate;
      Input (PromptDate "Enter end date" (Some "2024-01-25")) "2024-01-20"]%string,
     (["1"%string], tt)).
Proof.
  apply (proj1 (get_date_input_first_acceptable Z unit "Enter end date"
                  (Some "2024-01-25"%string)
                  ["20 January"; "2024-02-30"]%string tt
                  ltac:(repeat constructor))
               "2024-01-20"%string ["1"%string]).
  reflexivity.
Defined.

Lemma validate_date_isoformat_witness :
  validate_date (isoformat 2023 2 29) = false
  /\ validate_date (isoformat 2024 2 29) = true.
Proof.
  split.
  - apply (validate_date_isoformat 2023 2 29); lia.
  - apply (validate_date_isoformat 2024 2 29); lia.
Defined.

Lemma validate_date_accepts_plain_text_witness :
  validate_date (plain_text 2024 1 5) = true
  /\ strptime (plain_text 2024 1 5) = strptime (isoformat 2024 1 5)
  /\ (1 < 10 \/ 5 < 10 -> plain_text 2024 1 5 <> isoformat 2024 1 5).
Proof.
  apply (validate_date_accepts_plain_text 2024 1 5). reflexivity.
Defined.

Lemma main_swaps_dates_in_order_witness :
  validate_date (plain_text 2024 1 5) = true
  /\ validate_date (isoformat 2024 1 10) = true
  /\ main_fetch scripted no_clock "AAPL" (plain_text 2024 1 5)
                (isoformat 2024 1 10) "minute" 1 sorted_script
     = (Returned [],
        [Print MsgSwapping;
         Print (MsgFetching 1 "minute" "AAPL" (isoformat 2024 1 10)
                            (plain_text 2024 1 5))],
        sorted_script).
Proof.
  apply (main_swaps_dates_in_order Z (list (outcome Z)) scripted no_clock
           "AAPL" 2024 1 5 1 10 "minute" 1 sorted_script);
    [reflexivity | reflexivity | lia | vm_compute; reflexivity
     | vm_compute; reflexivity | left; reflexivity].
Defined.



Lemma main_never_plots_an_empty_frame_witness :
  let tr := run_trace (main scripted no_clock 738910 738910
                            (typed_lines, sorted_script)) in
  (forall df tk, In (PlotCandlestick df tk) tr -> df <> [])
  /\ (forall df f, In (ToCsv df f) tr -> df <> []).
Proof.
  apply (main_never_plots_an_empty_frame Z (list (outcome Z)) scripted
           no_clock 738910 738910 typed_lines sorted_script);
    lia.
Defined.

Lemma report_writes_files_on_yes_witness :
  main_report "AAPL" "2024-01-01" "2024-01-20" "minute"
              ([] : DataFrame Z) (["y"; "y"]%string, tt)
  = (inl tt, [Say MsgNoDataRetrieved], (["y"; "y"]%string, tt)).
Proof.
  apply (proj1 (report_writes_files_on_yes Z unit "AAPL" "2024-01-01"
                  "2024-01-20" "minute" [] (["y"; "y"]%string, tt))).
  reflexivity.
Defined.

